(** * RiskChat: conversation state and backend protocol

    A shallow embedding of the state logic of the [RiskChat] React
    component, in its two protocol variants:

    - [Chat]: the stateful-chat component (POST /chat, with an [isLoading]
      flag).  Two copies of it exist in the repository; they differ only in
      the base URL and in rendering, so one model stands for both.
    - [Retrieve]: the stateless-retrieval component (POST /retrieve).

    An [async] handler is split at its single [await]: the part that runs
    when the handler is invoked, and the continuation that runs when the
    HTTP promise settles.  A system state pairs the component state with
    the continuations still waiting.  The events of a system are user
    interface events and settlements of promises; React renders between two
    of them, so that a handler reads the state the event before it wrote.
    [ChatRender] has the handler of a render that is out of date. *)

From Stdlib Require Import ZArith NArith DecimalString.
From Stdlib Require DecimalZ DecimalPos.
From stdpp Require Import strings list.

Local Open Scope Z_scope.

(** ** JavaScript strings *)

(** A string is a sequence of UTF-16 code units. *)
Definition code_unit := N.
Definition jsstring := list code_unit.

(** An ASCII literal of the source. *)
Definition lit (s : string) : jsstring :=
  Ascii.N_of_ascii <$> String.list_ascii_of_string s.
Arguments lit s%_string.

(** The double quote, U+0022. *)
Definition dquote : jsstring := [34%N].

(** WhiteSpace and LineTerminator code points of ECMAScript, the ones
    [String.prototype.trim] strips. *)
Definition is_whitespace (c : code_unit) : bool :=
  ((9 <=? c) && (c <=? 13) ||
   (c =? 32) || (c =? 160) || (c =? 5760) ||
   (8192 <=? c) && (c <=? 8202) ||
   (c =? 8232) || (c =? 8233) || (c =? 8239) || (c =? 8287) ||
   (c =? 12288) || (c =? 65279))%N.

Fixpoint trimStart (s : jsstring) : jsstring :=
  match s with
  | [] => []
  | c :: rest => if is_whitespace c then trimStart rest else s
  end.

Definition trimEnd (s : jsstring) : jsstring :=
  reverse (trimStart (reverse s)).

Definition trim (s : jsstring) : jsstring := trimEnd (trimStart s).

(** Truthiness of a string: only the empty string is falsy. *)
Definition truthy (s : jsstring) : bool :=
  match s with [] => false | _ :: _ => true end.

(** Decimal rendering of a number, as string concatenation does it. *)
Definition decimal (n : Z) : jsstring :=
  lit (NilZero.string_of_int (Z.to_int n)).

(** ** Arrays *)

(** [Array.prototype.slice]: a negative index counts from the end, and
    both ends are clamped to the array. *)
Definition relative_index (len i : Z) : Z :=
  if i <? 0 then Z.max (len + i) 0 else Z.min i len.

Definition slice {A} (l : list A) (start final : Z) : list A :=
  let len := Z.of_nat (length l) in
  let from := relative_index len start in
  let to := relative_index len final in
  take (Z.to_nat (to - from)) (drop (Z.to_nat from) l).

(** ** Frontend data structures *)

Record RiskMetadata := {
  company_name : jsstring;
  risk_category : jsstring;
  risk_subcategory : jsstring;
  priority : Z;
  doc_type : option jsstring;
  source_name : option jsstring;
  duns_id : option jsstring;
  file_source_tag : option jsstring;
  business_id : option jsstring;
}.

Record RiskContextItem := {
  item_content : jsstring;
  metadata : RiskMetadata;
}.

Inductive Role := user | assistant.

(** The message type stored in the component's state.  [context] is an
    optional field: [None] is a message built without it.  [content] is
    declared a string, but the chat variant stores [data.response]
    unchecked, so that at run time it can be [undefined]: [None]. *)
Record ChatMessage := {
  role : Role;
  content : option jsstring;
  context : option (list RiskContextItem);
}.

(** The items a message carries, as [message.context?.map] walks them:
    none when the field is absent. *)
Definition context_items (m : ChatMessage) : list RiskContextItem :=
  default [] (context m).

Inductive WireRole := wire_user | wire_model.

(** The history structure of the backend API. *)
Record BackendChatMessage := {
  wire_role : WireRole;
  text : option jsstring;
}.

(** The [initialResponse] prop; every field is optional. *)
Record InitialResponse := {
  seed_query : option jsstring;
  seed_status : option jsstring;
  seed_count : option Z;
  seed_context : option (list RiskContextItem);
}.

(** ** The HTTP boundary *)

(** A thrown value, as far as the handlers look at it: whether it is
    nullish, and otherwise its string conversion. *)
Inductive JsError :=
| ThrownNullish
| Thrown (shown : jsstring).

(** The parsed body, [response.data]: JSON [null], or a value whose
    [response] and [context] properties are read.  A property that is
    missing or null is [None]; one that is present has the declared type, a
    string for [response] and findings for [context].  Bodies whose
    properties have other types are not part of the model. *)
Inductive Body :=
| BodyNull
| BodyFields (response : option jsstring)
             (bcontext : option (list RiskContextItem)).

(** What happens on the wire. *)
Inductive Transport :=
| NetworkFailure (error : JsError)
| HttpResponse (status : Z) (data : Body).

(** What [await axios.post(...)] does: it yields a response or throws. *)
Inductive HttpOutcome :=
| Resolved (data : Body)
| Rejected (error : JsError).

(** axios' default [validateStatus]. *)
Definition validateStatus (status : Z) : bool :=
  (200 <=? status) && (status <? 300).

(** [axios.post]: a response whose status is refused rejects the promise
    with an [AxiosError]. *)
Definition axios_post (t : Transport) : HttpOutcome :=
  match t with
  | NetworkFailure error => Rejected error
  | HttpResponse status data =>
      if validateStatus status then Resolved data
      else Rejected
             (Thrown (lit "AxiosError: Request failed with status code "
                        ++ decimal status))
  end.

(** [error ?? 'Unknown'] inside a template literal. *)
Definition error_or_unknown (error : JsError) : jsstring :=
  match error with
  | ThrownNullish => lit "Unknown"
  | Thrown shown => shown
  end.

(** [x || []] on an optional array: arrays are truthy, also empty ones. *)
Definition or_empty {A} (x : option (list A)) : list A :=
  match x with
  | Some l => l
  | None => []
  end.

(** [x ? yes(x) : no] on an optional string: a missing and an empty
    string are both falsy. *)
Definition if_truthy {B} (x : option jsstring) (yes : jsstring -> B) (no : B) : B :=
  match x with
  | Some s => if truthy s then yes s else no
  | None => no
  end.

(** [x || fallback] on an optional string. *)
Definition or_string (x : option jsstring) (fallback : jsstring) : jsstring :=
  if_truthy x (fun s => s) fallback.

(** [resp?.response] and [resp?.context]: [undefined] on a null body. *)
Definition body_response (resp : Body) : option jsstring :=
  match resp with
  | BodyNull => None
  | BodyFields response _ => response
  end.

Definition body_context (resp : Body) : option (list RiskContextItem) :=
  match resp with
  | BodyNull => None
  | BodyFields _ bcontext => bcontext
  end.

(** Every user turn is immediately followed by an assistant turn. *)
Fixpoint answered (l : list ChatMessage) : bool :=
  match l with
  | [] => true
  | m :: rest =>
      match role m, rest with
      | assistant, _ => answered rest
      | user, [] => false
      | user, next :: _ =>
          match role next with
          | assistant => answered rest
          | user => false
          end
      end
  end.

(** ** The stateful-chat component *)

Module Chat.

Record State := {
  messages : list ChatMessage;
  input : jsstring;
  isLoading : bool;
}.

Definition setMessages (f : list ChatMessage -> list ChatMessage) (st : State) : State :=
  {| messages := f (messages st); input := input st; isLoading := isLoading st |}.

Definition setInput (value : jsstring) (st : State) : State :=
  {| messages := messages st; input := value; isLoading := isLoading st |}.

Definition setIsLoading (b : bool) (st : State) : State :=
  {| messages := messages st; input := input st; isLoading := b |}.

(** The body of POST /chat. *)
Record Request := {
  query : jsstring;
  history : list BackendChatMessage;
  k : Z;
}.

(** A handler suspended at its [await], with the constants it closed
    over: [messages] of the render that ran it, [newUserMessage] and the
    request it sent. *)
Record Suspended := {
  seen : list ChatMessage;
  newUserMessage : ChatMessage;
  requestBody : Request;
}.

(** The [useState] initializer of [messages]. *)
Definition initial_messages (initialResponse : option InitialResponse)
  : list ChatMessage :=
  match initialResponse with
  | Some r =>
      match seed_context r with
      | Some c =>
          if negb (Z.of_nat (length c) =? 0) then
            [ {| role := assistant;
                 content :=
                   Some (if_truthy (seed_query r)
                           (fun q => lit "Here are the initial risk findings for: "
                                       ++ dquote ++ q ++ dquote)
                           (lit "Loaded initial risk data."));
                 context := Some c |} ]
          else []
      | None => []
      end
  | None => []
  end.

(** One entry of [history]. *)
Definition toBackend (msg : ChatMessage) : BackendChatMessage :=
  {| wire_role := match role msg with
                  | assistant => wire_model
                  | user => wire_user
                  end;
     text := content msg |}.

(** [sendMessage], up to the [await]: the new state, and the suspended
    handler when a request was sent. *)
Definition sendMessage (st : State) : State * option Suspended :=
  if negb (truthy (trim (input st))) || isLoading st then (st, None)
  else
    let newUserMessage :=
      {| role := user; content := Some (input st); context := None |} in
    let currentInput := input st in
    let st1 := setMessages (fun prev => prev ++ [newUserMessage]) st in
    let st2 := setInput [] st1 in
    let st3 := setIsLoading true st2 in
    let history := toBackend <$> messages st in
    let requestBody :=
      {| query := currentInput; history := history; k := 5 |} in
    (st3, Some {| seen := messages st;
                  newUserMessage := newUserMessage;
                  requestBody := requestBody |}).

(** The rest of the [try] block: the assistant message built from the
    response, or the value thrown.  Reading [data.response] of a null
    body throws a [TypeError]. *)
Definition newAssistantMessage (o : HttpOutcome) : ChatMessage + JsError :=
  match o with
  | Rejected error => inr error
  | Resolved BodyNull =>
      inr (Thrown (lit "TypeError: Cannot read properties of null (reading 'response')"))
  | Resolved (BodyFields response bcontext) =>
      inl {| role := assistant;
             content := response;
             context := Some (or_empty bcontext) |}
  end.

(** The message of the [catch] block. *)
Definition errorMessage (error : JsError) : ChatMessage :=
  {| role := assistant;
     content :=
       Some (lit "Sorry, an error occurred while processing your query. (Error: "
               ++ error_or_unknown error ++ lit ")");
     context := None |}.

(** [sendMessage], from the [await] on. *)
Definition settle (h : Suspended) (o : HttpOutcome) (st : State) : State :=
  let st1 :=
    match newAssistantMessage o with
    | inl reply =>
        setMessages
          (fun prev =>
             let newMessages := slice prev 0 (Z.of_nat (length prev) - 1) in
             newMessages ++ [newUserMessage h; reply])
          st
    | inr error =>
        setMessages
          (fun prev =>
             slice prev 0 (Z.of_nat (length prev) - 1) ++ [errorMessage error])
          st
    end in
  setIsLoading false st1.

(** The component with its suspended handlers. *)
Record System := {
  ui : State;
  waiting : list Suspended;
}.

(** What can happen: the text field changes (it is disabled while
    [isLoading]), [sendMessage] is invoked, or the request of the [n]-th
    suspended handler completes. *)
Inductive Event :=
| Change (value : jsstring)
| Send
| Settle (n : nat) (t : Transport).

Definition step (s : System) (e : Event) : System :=
  match e with
  | Change value =>
      if isLoading (ui s) then s
      else {| ui := setInput value (ui s); waiting := waiting s |}
  | Send =>
      let '(st, sent) := sendMessage (ui s) in
      {| ui := st; waiting := waiting s ++ option_list sent |}
  | Settle n t =>
      match waiting s !! n with
      | Some h =>
          {| ui := settle h (axios_post t) (ui s);
             waiting := delete n (waiting s) |}
      | None => s
      end
  end.

Definition run (es : list Event) (s : System) : System := foldl step s es.

Definition mount (initialResponse : option InitialResponse) : System :=
  {| ui := {| messages := initial_messages initialResponse;
              input := [];
              isLoading := false |};
     waiting := [] |}.

Definition reachable (s : System) : Prop :=
  exists initialResponse es, s = run es (mount initialResponse).

End Chat.

(** ** The stateless-retrieval component *)

Module Retrieve.

Record State := {
  messages : list ChatMessage;
  input : jsstring;
}.

Definition setMessages (f : list ChatMessage -> list ChatMessage) (st : State) : State :=
  {| messages := f (messages st); input := input st |}.

Definition setInput (value : jsstring) (st : State) : State :=
  {| messages := messages st; input := value |}.

(** The body of POST /retrieve. *)
Record Request := {
  query : jsstring;
  k : Z;
}.

(** A handler suspended at its [await]: the [messages] of the render
    that ran it, its [userMessage] and the request it sent. *)
Record Suspended := {
  seen : list ChatMessage;
  userMessage : ChatMessage;
  requestBody : Request;
}.

(** The [useState] initializer of [messages]. *)
Definition initial_messages (initialResponse : option InitialResponse)
  : list ChatMessage :=
  let greeting :=
    [ {| role := assistant;
         content := Some (lit "Ask a query to retrieve risk findings.");
         context := None |} ] in
  match initialResponse with
  | Some r =>
      match seed_context r with
      | Some c =>
          if negb (Z.of_nat (length c) =? 0) then
            [ {| role := assistant;
                 content :=
                   Some (if_truthy (seed_query r)
                           (fun q => lit "Here are the high priority risks for: "
                                       ++ dquote ++ q ++ dquote)
                           (lit "Loaded initial risk data."));
                 context := Some c |} ]
          else greeting
      | None => greeting
      end
  | None => greeting
  end.

(** [sendMessage], up to the [await]. *)
Definition sendMessage (st : State) : State * option Suspended :=
  if negb (truthy (trim (input st))) then (st, None)
  else
    let userMessage :=
      {| role := user; content := Some (input st); context := None |} in
    let st1 := setMessages (fun prev => prev ++ [userMessage]) st in
    (st1, Some {| seen := messages st;
                  userMessage := userMessage;
                  requestBody := {| query := input st; k := 5 |} |}).

(** The message of the [try] block. *)
Definition assistantMessage (resp : Body) : ChatMessage :=
  {| role := assistant;
     content := Some (or_string (body_response resp) (lit "Here are the results:"));
     context := Some (or_empty (body_context resp)) |}.

(** The message of the [catch] block. *)
Definition errorMessage : ChatMessage :=
  {| role := assistant;
     content := Some (lit "Error: Could not connect to backend.");
     context := None |}.

(** [sendMessage], from the [await] on. *)
Definition settle (h : Suspended) (o : HttpOutcome) (st : State) : State :=
  let st1 :=
    match o with
    | Resolved resp =>
        setMessages (fun prev => prev ++ [assistantMessage resp]) st
    | Rejected err =>
        setMessages (fun prev => prev ++ [errorMessage]) st
    end in
  setInput [] st1.

Record System := {
  ui : State;
  waiting : list Suspended;
}.

(** The text field of this variant is never disabled. *)
Inductive Event :=
| Change (value : jsstring)
| Send
| Settle (n : nat) (t : Transport).

Definition step (s : System) (e : Event) : System :=
  match e with
  | Change value => {| ui := setInput value (ui s); waiting := waiting s |}
  | Send =>
      let '(st, sent) := sendMessage (ui s) in
      {| ui := st; waiting := waiting s ++ option_list sent |}
  | Settle n t =>
      match waiting s !! n with
      | Some h =>
          {| ui := settle h (axios_post t) (ui s);
             waiting := delete n (waiting s) |}
      | None => s
      end
  end.

Definition run (es : list Event) (s : System) : System := foldl step s es.

Definition mount (initialResponse : option InitialResponse) : System :=
  {| ui := {| messages := initial_messages initialResponse; input := [] |};
     waiting := [] |}.

Definition reachable (s : System) : Prop :=
  exists initialResponse es, s = run es (mount initialResponse).

End Retrieve.

(** ** The root page *)

(** The line feed, written [\n] in the source. *)
Definition nl : jsstring := [10%N].

(** The two findings the root page passes to the component. *)
Definition contested_industry : RiskContextItem :=
  {| item_content :=
       lit "Risk Finding for **IBM** (File: ibm)."
    ++ nl ++ lit "Category: Government Restrictions / CONTESTED INDUSTRY: Presence in a contested industry"
    ++ nl ++ lit "Priority: 4"
    ++ nl ++ lit "Finding: Organization is listed as a member of Semi.org, a semiconductor global industry association that facilitates collaboration and IP sharing across the semiconductor industry. Membership includes western and Chinese entities across the semiconductor industry. The company incurs risk from operations within a contested industry."
    ++ nl ++ lit "Source: BSD"
    ++ nl ++ lit "DUNS: N/A";
     metadata :=
       {| company_name := lit "IBM";
          risk_category := lit "Government Restrictions";
          risk_subcategory :=
            lit "CONTESTED INDUSTRY: Presence in a contested industry";
          priority := 4;
          doc_type := Some (lit "RiskFinding");
          source_name := Some (lit "BSD");
          duns_id := Some (lit "N/A");
          file_source_tag := Some (lit "ibm");
          business_id := Some (lit "95c71582-c539-4089-8a2f-9592ebefabf2") |} |}.

Definition sbir_applicant : RiskContextItem :=
  {| item_content :=
       lit "Risk Finding for **IBM** (File: ibm)."
    ++ nl ++ lit "Category: Subversion, Exploitation, Espionage / US SBIR grant applicant, public discoverability"
    ++ nl ++ lit "Priority: 4"
    ++ nl ++ lit "Finding: Company is listed as a past or present applicant for a US SBIR grant."
    ++ nl ++ lit "Source: BSD"
    ++ nl ++ lit "DUNS: N/A";
     metadata :=
       {| company_name := lit "IBM";
          risk_category := lit "Subversion, Exploitation, Espionage";
          risk_subcategory :=
            lit "US SBIR grant applicant, public discoverability";
          priority := 4;
          doc_type := Some (lit "RiskFinding");
          source_name := Some (lit "BSD");
          duns_id := Some (lit "N/A");
          file_source_tag := Some (lit "ibm");
          business_id := Some (lit "95c71582-c539-4089-8a2f-9592ebefabf2") |} |}.

(** [initialResponse] of the root page. *)
Definition initialResponse : InitialResponse :=
  {| seed_query := Some (lit "Which companies are having the high priority risk?");
     seed_status := Some (lit "Success");
     seed_count := Some 5;
     seed_context := Some [contested_industry; sbir_applicant] |}.

(** ** A handler of an earlier render *)

Module ChatRender.

(** [sendMessage] of the chat component as the closure it is: the handler
    of a render whose state was [render], invoked when the state is [st].
    The guard, [newUserMessage], [currentInput] and [history] read the
    constants [input], [isLoading] and [messages] of the render; the updaters
    act on the state.  [Chat.sendMessage st] is the handler of the render of
    [st] itself. *)
Definition sendMessage (render st : Chat.State)
  : Chat.State * option Chat.Suspended :=
  if negb (truthy (trim (Chat.input render))) || Chat.isLoading render
  then (st, None)
  else
    let newUserMessage :=
      {| role := user; content := Some (Chat.input render); context := None |} in
    let currentInput := Chat.input render in
    let st1 := Chat.setMessages (fun prev => prev ++ [newUserMessage]) st in
    let st2 := Chat.setInput [] st1 in
    let st3 := Chat.setIsLoading true st2 in
    let history := Chat.toBackend <$> Chat.messages render in
    let requestBody :=
      {| Chat.query := currentInput; Chat.history := history; Chat.k := 5 |} in
    (st3, Some {| Chat.seen := Chat.messages render;
                  Chat.newUserMessage := newUserMessage;
                  Chat.requestBody := requestBody |}).

End ChatRender.

(** ** Rendering *)

(** [content.replace(/\n/g, '<br />')]: every line feed becomes a break
    tag, and every other code unit stays. *)
Definition replace_newlines (s : jsstring) : jsstring :=
  s ≫= (fun c => if (c =? 10)%N then lit "<br />" else [c]).

(** The message area of the chat component. *)
Module ChatView.

(** The [__html] of a bubble.  Reading [replace] of an undefined content
    throws: [None]. *)
Definition innerHTML (message : ChatMessage) : option jsstring :=
  replace_newlines <$> content message.

(** The [__html] of the bubbles of [messages.map], in order; when one
    throws, the render throws.  The cards below the text are not part of
    it. *)
Definition bubbles (messages : list ChatMessage) : option (list jsstring) :=
  mapM innerHTML messages.

(** One accordion of the second copy: the [id] of its summary, its
    [aria-controls], whether it starts expanded, its title and the finding
    it shows. *)
Record Panel := {
  panel_id : jsstring;
  panel_controls : jsstring;
  defaultExpanded : bool;
  panel_title : jsstring;
  panel_item : RiskContextItem;
}.

(** What the second copy renders below the text of a bubble: nothing, a
    heading with one card, or a heading with one accordion per finding. *)
Inductive Sources :=
| NoSources
| SingleCard (heading : jsstring) (item : RiskContextItem)
| Accordions (heading : jsstring) (panels : list Panel).

(** [{n} Retrieved Source Document{n > 1 ? 's' : ''}] *)
Definition sources_heading (n : nat) : jsstring :=
  decimal (Z.of_nat n) ++ lit " Retrieved Source Document"
    ++ (if (1 <? n)%nat then lit "s" else []).

Definition panel (i : nat) (ctx : RiskContextItem) : Panel :=
  {| panel_id := lit "panel-" ++ decimal (Z.of_nat i) ++ lit "-header";
     panel_controls := lit "panel-" ++ decimal (Z.of_nat i) ++ lit "-content";
     defaultExpanded := (i =? 0)%nat;
     panel_title :=
       lit "Document " ++ decimal (Z.of_nat i + 1) ++ lit ": "
         ++ company_name (metadata ctx) ++ lit " - "
         ++ risk_subcategory (metadata ctx);
     panel_item := ctx |}.

Definition sources (message : ChatMessage) : Sources :=
  match context message with
  | Some c =>
      if (0 <? length c)%nat then
        if (1 <? length c)%nat then
          Accordions (sources_heading (length c)) (imap panel c)
        else
          match c with
          | first :: _ => SingleCard (sources_heading (length c)) first
          | [] => NoSources
          end
      else NoSources
  | None => NoSources
  end.

(** The findings a rendering shows, in order. *)
Definition shown (view : Sources) : list RiskContextItem :=
  match view with
  | NoSources => []
  | SingleCard _ item => [item]
  | Accordions _ panels => panel_item <$> panels
  end.

End ChatView.

(** The message area of the retrieval component. *)
Module RetrieveView.

(** The cards below the text of a bubble:
    [msg.role === 'assistant' && msg.context && msg.context.map(...)]. *)
Definition cards (msg : ChatMessage) : list RiskContextItem :=
  match role msg with
  | assistant =>
      match context msg with
      | Some c => c
      | None => []
      end
  | user => []
  end.

End RetrieveView.

(** ** Auxiliary notions of the statements *)

(** Empty or whitespace-only. *)
Definition blank (s : jsstring) : Prop :=
  Forall (fun c => is_whitespace c = true) s.

(** A transport outcome that is no 2xx response. *)
Definition refused (t : Transport) : bool :=
  match t with
  | NetworkFailure _ => true
  | HttpResponse status _ => negb (validateStatus status)
  end.

(** What holds between the chat component's state and its suspended
    handler while the request is outstanding. *)
Definition chat_pending (st : Chat.State) (h : Chat.Suspended) : Prop :=
  Chat.isLoading st = true
  /\ Chat.input st = []
  /\ Chat.messages st = Chat.seen h ++ [Chat.newUserMessage h]
  /\ answered (Chat.seen h) = true
  /\ Chat.newUserMessage h =
       {| role := user;
          content := Some (Chat.query (Chat.requestBody h));
          context := None |}
  /\ Chat.history (Chat.requestBody h) = Chat.toBackend <$> Chat.seen h.

Definition chat_invariant (s : Chat.System) : Prop :=
  match Chat.waiting s with
  | [] => Chat.isLoading (Chat.ui s) = false
          /\ answered (Chat.messages (Chat.ui s)) = true
  | [h] => chat_pending (Chat.ui s) h
  | _ :: _ :: _ => False
  end.

(** What holds between the retrieval component's state and each of its
    suspended handlers. *)
Definition retrieve_pending (st : Retrieve.State) (h : Retrieve.Suspended) : Prop :=
  Retrieve.seen h ++ [Retrieve.userMessage h] `prefix_of` Retrieve.messages st
  /\ Retrieve.userMessage h =
       {| role := user;
          content := Some (Retrieve.query (Retrieve.requestBody h));
          context := None |}.

Definition retrieve_invariant (s : Retrieve.System) : Prop :=
  Forall (retrieve_pending (Retrieve.ui s)) (Retrieve.waiting s).

(** A transport outcome whose body, if it is a 2xx response, is null or has
    a string as its [response] property. *)
Definition carries_response (t : Transport) : bool :=
  match t with
  | HttpResponse status (BodyFields None _) => negb (validateStatus status)
  | _ => true
  end.

(** The number of turns of a role. *)
Definition has_role (r : Role) (m : ChatMessage) : bool :=
  match role m, r with
  | user, user | assistant, assistant => true
  | _, _ => false
  end.

Definition turns_of (r : Role) (l : list ChatMessage) : nat :=
  length (List.filter (has_role r) l).

(** The turns of the chat component whose exchange is over: all of them
    when nothing is outstanding, else the ones before the optimistic user
    turn. *)
Definition chat_completed (s : Chat.System) : list ChatMessage :=
  match Chat.waiting s with
  | [h] => Chat.seen h
  | _ => Chat.messages (Chat.ui s)
  end.

(** * Properties *)

#[global] Arguments Chat.settle : simpl never.
#[global] Arguments Chat.sendMessage : simpl never.
#[global] Arguments Retrieve.settle : simpl never.
#[global] Arguments Retrieve.sendMessage : simpl never.

(** ** Strings and arrays *)

Lemma trimStart_blank s : blank s -> trimStart s = [].
Proof.
  induction 1 as [|c rest Hc _ IH]; simpl; [done|].
  by rewrite Hc.
Qed.

Lemma trimStart_head s :
  trimStart s = [] \/ exists c rest, trimStart s = c :: rest /\ is_whitespace c = false.
Proof.
  induction s as [|c rest IH]; simpl; [by left|].
  destruct (is_whitespace c) eqn:Hc; [done|].
  right. by exists c, rest.
Qed.

Lemma trimStart_nil_blank s : trimStart s = [] -> blank s.
Proof.
  induction s as [|c rest IH]; simpl; [constructor|].
  destruct (is_whitespace c) eqn:Hc; [|done].
  intros H. apply Forall_cons. split; [exact Hc | exact (IH H)].
Qed.

Lemma blank_trimStart s : blank s -> blank (trimStart s).
Proof. intros H. rewrite (trimStart_blank s H). constructor. Qed.

Lemma trim_blank s : trim s = [] <-> blank s.
Proof.
  unfold trim, trimEnd. split.
  - intros H.
    assert (Hr : trimStart (reverse (trimStart s)) = []).
    { apply (f_equal reverse) in H. by rewrite reverse_involutive in H. }
    apply trimStart_nil_blank in Hr. unfold blank in Hr.
    rewrite Forall_reverse in Hr.
    destruct (trimStart_head s) as [Hs|(c & rest & Hs & Hc)].
    + by apply trimStart_nil_blank.
    + rewrite Hs in Hr. apply Forall_cons in Hr as [Hc' _].
      simpl in Hc'. congruence.
  - intros H. by rewrite (trimStart_blank s H).
Qed.

Lemma truthy_false s : truthy s = false <-> s = [].
Proof. by destruct s. Qed.

Lemma truthy_true s : truthy s = true <-> s <> [].
Proof. by destruct s. Qed.

Lemma slice_init {A} (l : list A) :
  slice l 0 (Z.of_nat (length l) - 1) = take (length l - 1) l.
Proof.
  unfold slice, relative_index.
  destruct l as [|x l]; [done|].
  cbn [length]. change (0 <? 0) with false. cbv iota.
  destruct (Z.ltb_spec (Z.of_nat (S (length l)) - 1) 0); [lia|].
  rewrite !Z.min_l by lia.
  rewrite Z.sub_0_r. change (Z.to_nat 0) with 0%nat. rewrite drop_0.
  f_equal. lia.
Qed.

Lemma slice_snoc {A} (l : list A) x :
  slice (l ++ [x]) 0 (Z.of_nat (length (l ++ [x])) - 1) = l.
Proof.
  rewrite slice_init, length_app. simpl.
  replace (length l + 1 - 1)%nat with (length l) by lia.
  apply take_app_length.
Qed.

(** ** The answered-turn invariant *)

Lemma answered_app l1 l2 :
  answered l1 = true -> answered l2 = true -> answered (l1 ++ l2) = true.
Proof.
  revert l2. induction l1 as [|m rest IH]; intros l2 H1 H2; [done|].
  simpl in *. destruct (role m).
  - destruct rest as [|next rest']; [done|].
    simpl. destruct (role next) eqn:Hn; [done|].
    specialize (IH l2 H1 H2). simpl in IH. by rewrite Hn in IH.
  - auto.
Qed.

(** ** The chat component: one request at a time *)

Lemma chat_mount_answered r : answered (Chat.initial_messages r) = true.
Proof.
  unfold Chat.initial_messages.
  destruct r as [r|]; [|done].
  destruct (seed_context r) as [c|]; [|done].
  by destruct (negb _).
Qed.

Lemma chat_mount_invariant r : chat_invariant (Chat.mount r).
Proof.
  unfold chat_invariant, Chat.mount; simpl.
  split; [done | apply chat_mount_answered].
Qed.

Lemma chat_newAssistantMessage_role o reply :
  Chat.newAssistantMessage o = inl reply -> role reply = assistant.
Proof.
  destruct o as [[|response bcontext]|error]; simpl; intros H; try done.
  by inversion H.
Qed.

(** The state a suspended handler leaves when it resumes. *)
Lemma chat_settle_pending st h o :
  chat_pending st h ->
  Chat.settle h o st =
    {| Chat.messages :=
         Chat.seen h ++
           match Chat.newAssistantMessage o with
           | inl reply => [Chat.newUserMessage h; reply]
           | inr error => [Chat.errorMessage error]
           end;
       Chat.input := [];
       Chat.isLoading := false |}.
Proof.
  intros (_ & Hin & Hmsg & _).
  unfold Chat.settle, Chat.setIsLoading, Chat.setMessages.
  destruct (Chat.newAssistantMessage o) as [reply|error]; simpl;
    rewrite Hin, Hmsg, slice_snoc; reflexivity.
Qed.

Lemma chat_step_invariant s e : chat_invariant s -> chat_invariant (Chat.step s e).
Proof.
  destruct s as [st w]. unfold chat_invariant. simpl.
  destruct w as [|h [|h' w]]; [| |done].
  - (* nothing outstanding *)
    intros [Hload Hans]. destruct e as [value| |n t]; simpl.
    + rewrite Hload. simpl. by rewrite Hload.
    + unfold Chat.sendMessage. rewrite Hload, orb_false_r.
      destruct (truthy (trim (Chat.input st))); simpl; [|done].
      unfold chat_pending; simpl. by repeat split.
    + by destruct n.
  - (* one request outstanding *)
    intros Hp. pose proof Hp as (Hload & Hin & Hmsg & Hans & Hu & Hh).
    destruct e as [value| |n t]; cbn.
    + by rewrite Hload.
    + unfold Chat.sendMessage. by rewrite Hload, orb_true_r.
    + destruct n as [|n]; cbn; [|done].
      rewrite (chat_settle_pending st h _ Hp). simpl. split; [done|].
      apply answered_app; [done|].
      destruct (Chat.newAssistantMessage (axios_post t)) as [reply|error] eqn:Hr.
      * rewrite Hu. simpl.
        by rewrite (chat_newAssistantMessage_role _ _ Hr).
      * done.
Qed.

Lemma chat_run_invariant es s : chat_invariant s -> chat_invariant (Chat.run es s).
Proof.
  unfold Chat.run. revert s.
  induction es as [|e es IH]; intros s Hs; simpl; [done|].
  by apply IH, chat_step_invariant.
Qed.

Lemma chat_reachable_invariant s : Chat.reachable s -> chat_invariant s.
Proof.
  intros (r & es & ->). apply chat_run_invariant, chat_mount_invariant.
Qed.

(** A reachable state has at most one suspended handler, and it is the
    first one. *)
Lemma chat_reachable_waiting s n h :
  Chat.reachable s -> Chat.waiting s !! n = Some h ->
  n = 0%nat /\ Chat.waiting s = [h] /\ chat_pending (Chat.ui s) h.
Proof.
  intros Hr Hn. apply chat_reachable_invariant in Hr.
  unfold chat_invariant in Hr.
  destruct (Chat.waiting s) as [|h0 [|h1 w]]; [done| |done].
  destruct n as [|n]; simpl in Hn; [|done].
  by inversion Hn; subst.
Qed.

Lemma chat_reachable_step s e : Chat.reachable s -> Chat.reachable (Chat.step s e).
Proof.
  intros (r & es & ->). exists r, (es ++ [e]).
  unfold Chat.run. by rewrite foldl_app.
Qed.

(** ** The retrieval component: append only *)

Lemma retrieve_pending_mono st st' h :
  Retrieve.messages st `prefix_of` Retrieve.messages st' ->
  retrieve_pending st h -> retrieve_pending st' h.
Proof.
  intros Hpre [Hh Hu]. split; [|done]. by etrans.
Qed.

Lemma retrieve_settle_messages h o st :
  Retrieve.messages (Retrieve.settle h o st) =
    Retrieve.messages st ++
      [match o with
       | Resolved resp => Retrieve.assistantMessage resp
       | Rejected _ => Retrieve.errorMessage
       end].
Proof. by destruct o. Qed.

Lemma retrieve_step_prefix s e :
  Retrieve.messages (Retrieve.ui s)
    `prefix_of` Retrieve.messages (Retrieve.ui (Retrieve.step s e)).
Proof.
  destruct e as [value| |n t]; cbn.
  - done.
  - unfold Retrieve.sendMessage.
    destruct (negb _); cbn; [done|]. by apply prefix_app_r.
  - destruct (Retrieve.waiting s !! n) as [h|]; cbn; [|done].
    rewrite retrieve_settle_messages. by apply prefix_app_r.
Qed.

Lemma retrieve_step_invariant s e :
  retrieve_invariant s -> retrieve_invariant (Retrieve.step s e).
Proof.
  intros Hinv. pose proof (retrieve_step_prefix s e) as Hpre.
  unfold retrieve_invariant in *.
  assert (Hold : Forall (retrieve_pending (Retrieve.ui (Retrieve.step s e)))
                   (Retrieve.waiting s)).
  { eapply Forall_impl; [exact Hinv|].
    intros h. by apply retrieve_pending_mono. }
  destruct e as [value| |n t]; cbn in *.
  - done.
  - unfold Retrieve.sendMessage in *.
    destruct (negb _); cbn in *.
    + by rewrite app_nil_r.
    + apply Forall_app. split; [done|].
      apply Forall_singleton. by split.
  - destruct (Retrieve.waiting s !! n) as [h|]; cbn in *; [|done].
    by apply Forall_delete.
Qed.

Lemma retrieve_mount_invariant r : retrieve_invariant (Retrieve.mount r).
Proof. unfold retrieve_invariant. simpl. constructor. Qed.

Lemma retrieve_reachable_invariant s : Retrieve.reachable s -> retrieve_invariant s.
Proof.
  intros (r & es & ->). unfold Retrieve.run.
  generalize (retrieve_mount_invariant r). generalize (Retrieve.mount r).
  induction es as [|e es IH]; intros s Hs; simpl; [done|].
  by apply IH, retrieve_step_invariant.
Qed.

Lemma retrieve_reachable_waiting s n h :
  Retrieve.reachable s -> Retrieve.waiting s !! n = Some h ->
  retrieve_pending (Retrieve.ui s) h.
Proof.
  intros Hr Hn. apply retrieve_reachable_invariant in Hr.
  unfold retrieve_invariant in Hr.
  by eapply Forall_lookup_1 in Hr.
Qed.

(** ** Resuming a suspended handler *)

Lemma chat_step_settle s n h t :
  Chat.reachable s -> Chat.waiting s !! n = Some h ->
  Chat.step s (Chat.Settle n t) =
    {| Chat.ui :=
         {| Chat.messages :=
              Chat.seen h ++
                match Chat.newAssistantMessage (axios_post t) with
                | inl reply => [Chat.newUserMessage h; reply]
                | inr error => [Chat.errorMessage error]
                end;
            Chat.input := [];
            Chat.isLoading := false |};
       Chat.waiting := [] |}.
Proof.
  intros Hr Hn.
  destruct (chat_reachable_waiting s n h Hr Hn) as (-> & Hw & Hp).
  unfold Chat.step. rewrite Hn, Hw.
  by rewrite (chat_settle_pending _ _ _ Hp).
Qed.

Lemma retrieve_step_settle s n h t :
  Retrieve.waiting s !! n = Some h ->
  Retrieve.step s (Retrieve.Settle n t) =
    {| Retrieve.ui := Retrieve.settle h (axios_post t) (Retrieve.ui s);
       Retrieve.waiting := delete n (Retrieve.waiting s) |}.
Proof. intros Hn. unfold Retrieve.step. by rewrite Hn. Qed.

Lemma refused_rejected t :
  refused t = true -> exists error, axios_post t = Rejected error.
Proof.
  destruct t as [error|status data]; simpl; [by exists error|].
  destruct (validateStatus status); [done|]. eauto.
Qed.

Lemma chat_sendMessage_accepts st :
  trim (Chat.input st) <> [] -> Chat.isLoading st = false ->
  Chat.sendMessage st =
    ({| Chat.messages :=
          Chat.messages st ++
            [ {| role := user; content := Some (Chat.input st); context := None |} ];
        Chat.input := [];
        Chat.isLoading := true |},
     Some {| Chat.seen := Chat.messages st;
             Chat.newUserMessage :=
               {| role := user; content := Some (Chat.input st); context := None |};
             Chat.requestBody :=
               {| Chat.query := Chat.input st;
                  Chat.history := Chat.toBackend <$> Chat.messages st;
                  Chat.k := 5 |} |}).
Proof.
  intros Ht Hl. unfold Chat.sendMessage.
  apply truthy_true in Ht. by rewrite Ht, Hl.
Qed.

Lemma retrieve_sendMessage_accepts st :
  trim (Retrieve.input st) <> [] ->
  Retrieve.sendMessage st =
    ({| Retrieve.messages :=
          Retrieve.messages st ++
            [ {| role := user; content := Some (Retrieve.input st); context := None |} ];
        Retrieve.input := Retrieve.input st |},
     Some {| Retrieve.seen := Retrieve.messages st;
             Retrieve.userMessage :=
               {| role := user; content := Some (Retrieve.input st); context := None |};
             Retrieve.requestBody :=
               {| Retrieve.query := Retrieve.input st; Retrieve.k := 5 |} |}).
Proof.
  intros Ht. unfold Retrieve.sendMessage.
  apply truthy_true in Ht. by rewrite Ht.
Qed.

(** In a reachable state of the chat component, text in the input field
    means that nothing is outstanding. *)
Lemma chat_reachable_input_idle s :
  Chat.reachable s -> trim (Chat.input (Chat.ui s)) <> [] ->
  Chat.isLoading (Chat.ui s) = false.
Proof.
  intros Hr Ht. apply chat_reachable_invariant in Hr.
  unfold chat_invariant in Hr.
  destruct (Chat.waiting s) as [|h [|h' w]]; [by destruct Hr| |done].
  destruct Hr as (_ & Hin & _). by rewrite Hin in Ht.
Qed.

(** * The claims *)

(** C1, as the code has it.  A failed request adds exactly one assistant
    turn that carries no context.  In the retrieval component the turn has
    the fixed content "Error: Could not connect to backend." and is appended
    after the user turn, which stays.  In the chat component the turn has
    the content "Sorry, an error occurred while processing your query.
    (Error: E)", where E is the error or "Unknown", and it takes the place of
    the optimistic user turn, which is rolled back.  In the chat component
    every user turn is immediately followed by an assistant turn once the
    failure is handled, in every reachable state.  In the retrieval
    component this holds when it held of the turns before the submission and
    the optimistic user turn is still the last turn when the failure is
    handled; with requests overlapping, which the retrieval component
    allows, it can fail. *)
Theorem C1_failed_request_error_turn :
  (forall (s : Retrieve.System) n h t,
      Retrieve.waiting s !! n = Some h -> refused t = true ->
      Retrieve.messages (Retrieve.ui (Retrieve.step s (Retrieve.Settle n t))) =
        Retrieve.messages (Retrieve.ui s) ++
          [ {| role := assistant;
               content := Some (lit "Error: Could not connect to backend.");
               context := None |} ])
  /\ (forall (st st1 : Retrieve.State) h t,
        answered (Retrieve.messages st) = true ->
        Retrieve.sendMessage st = (st1, Some h) -> refused t = true ->
        Retrieve.messages (Retrieve.settle h (axios_post t) st1) =
          Retrieve.messages st ++
            [ {| role := user; content := Some (Retrieve.input st); context := None |};
              Retrieve.errorMessage ]
        /\ answered (Retrieve.messages (Retrieve.settle h (axios_post t) st1)) = true)
  /\ (forall (s : Chat.System) n h t error,
        Chat.reachable s -> Chat.waiting s !! n = Some h ->
        Chat.newAssistantMessage (axios_post t) = inr error ->
        Chat.messages (Chat.ui s) = Chat.seen h ++ [Chat.newUserMessage h]
        /\ Chat.messages (Chat.ui (Chat.step s (Chat.Settle n t))) =
             Chat.seen h ++
               [ {| role := assistant;
                    content :=
                      Some (lit "Sorry, an error occurred while processing your query. (Error: "
                              ++ error_or_unknown error ++ lit ")");
                    context := None |} ]
        /\ answered (Chat.messages (Chat.ui (Chat.step s (Chat.Settle n t)))) = true)
  /\ (forall (s : Retrieve.System) n h t,
        Retrieve.reachable s -> Retrieve.waiting s !! n = Some h ->
        Retrieve.messages (Retrieve.ui s) =
          Retrieve.seen h ++ [Retrieve.userMessage h] ->
        answered (Retrieve.seen h) = true -> refused t = true ->
        answered
          (Retrieve.messages (Retrieve.ui (Retrieve.step s (Retrieve.Settle n t)))) =
          true)
  /\ answered
       (Retrieve.messages
          (Retrieve.ui
             (Retrieve.run
                [Retrieve.Change (lit "a"); Retrieve.Send; Retrieve.Send;
                 Retrieve.Settle 0 (HttpResponse 500 BodyNull)]
                (Retrieve.mount None)))) = false.
Proof.
  split; [|split; [|split; [|split]]]; [| | | |reflexivity].
  - intros s n h t Hn Ht.
    destruct (refused_rejected t Ht) as [error He].
    rewrite (retrieve_step_settle s n h t Hn). cbn.
    by rewrite retrieve_settle_messages, He.
  - intros st st1 h t Hans Hsend Ht.
    destruct (refused_rejected t Ht) as [error He].
    unfold Retrieve.sendMessage in Hsend.
    destruct (negb _); [done|]. inversion Hsend; subst; clear Hsend.
    rewrite retrieve_settle_messages, He. cbn.
    rewrite <- app_assoc. split; [done|].
    by apply answered_app.
  - intros s n h t error Hr Hn Herr.
    destruct (chat_reachable_waiting s n h Hr Hn) as (_ & _ & Hp).
    pose proof (chat_reachable_invariant _ (chat_reachable_step s (Chat.Settle n t) Hr))
      as Hinv.
    rewrite (chat_step_settle s n h t Hr Hn) in *. rewrite Herr in *.
    destruct Hp as (_ & _ & Hmsg & _).
    repeat split; [done|]. by destruct Hinv.
  - intros s n h t Hr Hn Hmsg Hans Ht.
    destruct (retrieve_reachable_waiting s n h Hr Hn) as [_ Hu].
    destruct (refused_rejected t Ht) as [error He].
    rewrite (retrieve_step_settle s n h t Hn). cbn.
    rewrite retrieve_settle_messages, He, Hmsg, Hu, <- app_assoc.
    by apply answered_app.
Qed.

(** C1, as stated, fails in the chat component.  From the empty sequence,
    typing "a", submitting and getting a 500 leaves one assistant turn and no
    user turn: the sequence is as long as it was while the request was
    outstanding, and the content names the error, so that a 404 gives another
    content.  No fixed string fits all failures. *)
Lemma C1_chat_failure_rolls_back :
  let a := {| role := user; content := Some (lit "a"); context := None |} in
  let sent := Chat.run [Chat.Change (lit "a"); Chat.Send] (Chat.mount None) in
  Chat.messages (Chat.ui sent) = [a]
  /\ Chat.messages (Chat.ui (Chat.step sent (Chat.Settle 0 (HttpResponse 500 BodyNull)))) =
       [ {| role := assistant;
            content :=
              Some (lit "Sorry, an error occurred while processing your query. (Error: AxiosError: Request failed with status code 500)");
            context := None |} ]
  /\ Chat.messages (Chat.ui (Chat.step sent (Chat.Settle 0 (HttpResponse 404 BodyNull)))) =
       [ {| role := assistant;
            content :=
              Some (lit "Sorry, an error occurred while processing your query. (Error: AxiosError: Request failed with status code 404)");
            context := None |} ]
  /\ ~ (exists fixed : jsstring,
          forall s n h t error,
            Chat.reachable s -> Chat.waiting s !! n = Some h ->
            Chat.newAssistantMessage (axios_post t) = inr error ->
            exists reply,
              role reply = assistant /\ content reply = Some fixed
              /\ context_items reply = []
              /\ Chat.messages (Chat.ui (Chat.step s (Chat.Settle n t))) =
                   Chat.messages (Chat.ui s) ++ [reply]).
Proof.
  cbv zeta. split; [reflexivity|]. split; [reflexivity|]. split; [reflexivity|].
  intros [fixed H].
  destruct (H (Chat.run [Chat.Change (lit "a"); Chat.Send] (Chat.mount None))
              0%nat _ (HttpResponse 500 BodyNull) _
              (ex_intro _ None (ex_intro _ _ eq_refl)) eq_refl eq_refl)
    as (reply & _ & _ & _ & Hm).
  apply (f_equal length) in Hm. vm_compute in Hm. discriminate.
Qed.

Lemma C1_failed_request_error_turn_witness :
  Retrieve.messages
    (Retrieve.ui
       (Retrieve.run
          [Retrieve.Change (lit "a"); Retrieve.Send;
           Retrieve.Settle 0 (HttpResponse 500 BodyNull)]
          (Retrieve.mount None))) =
    [ {| role := assistant;
         content := Some (lit "Ask a query to retrieve risk findings.");
         context := None |};
      {| role := user; content := Some (lit "a"); context := None |};
      {| role := assistant;
         content := Some (lit "Error: Could not connect to backend.");
         context := None |} ]
  /\ answered
       (Retrieve.messages
          (Retrieve.settle
             {| Retrieve.seen := [];
                Retrieve.userMessage :=
                  {| role := user; content := Some (lit "a"); context := None |};
                Retrieve.requestBody :=
                  {| Retrieve.query := lit "a"; Retrieve.k := 5 |} |}
             (axios_post (NetworkFailure ThrownNullish))
             {| Retrieve.messages :=
                  [ {| role := user; content := Some (lit "a"); context := None |} ];
                Retrieve.input := lit "a" |})) = true
  /\ Chat.messages
       (Chat.ui
          (Chat.run
             [Chat.Change (lit "a"); Chat.Send;
              Chat.Settle 0 (NetworkFailure ThrownNullish)]
             (Chat.mount None))) =
       [ {| role := assistant;
            content :=
              Some (lit "Sorry, an error occurred while processing your query. (Error: Unknown)");
            context := None |} ]
  /\ answered
       (Retrieve.messages
          (Retrieve.ui
             (Retrieve.run
                [Retrieve.Change (lit "a"); Retrieve.Send;
                 Retrieve.Change (lit "b");
                 Retrieve.Settle 0 (HttpResponse 500 BodyNull)]
                (Retrieve.mount (Some initialResponse))))) = true.
Proof.
  destruct C1_failed_request_error_turn
    as (Hretrieve & Hcycle & Hchat & Hlast & _).
  split; [|split; [|split]].
  - exact (Hretrieve
             (Retrieve.run [Retrieve.Change (lit "a"); Retrieve.Send]
                (Retrieve.mount None))
             0%nat _ (HttpResponse 500 BodyNull) eq_refl eq_refl).
  - exact (proj2 (Hcycle
                    {| Retrieve.messages := []; Retrieve.input := lit "a" |}
                    _ _ (NetworkFailure ThrownNullish) eq_refl eq_refl eq_refl)).
  - exact (proj1 (proj2
             (Hchat
                (Chat.run [Chat.Change (lit "a"); Chat.Send] (Chat.mount None))
                0%nat _ (NetworkFailure ThrownNullish) ThrownNullish
                (ex_intro _ None (ex_intro _ _ eq_refl)) eq_refl eq_refl))).
  - exact (Hlast
             (Retrieve.run
                [Retrieve.Change (lit "a"); Retrieve.Send; Retrieve.Change (lit "b")]
                (Retrieve.mount (Some initialResponse)))
             0%nat _ (HttpResponse 500 BodyNull)
             (ex_intro _ (Some initialResponse) (ex_intro _ _ eq_refl))
             eq_refl eq_refl eq_refl eq_refl).
Defined.

(** C2, as the code has it.  In the chat component at most one request is
    outstanding in every reachable state, and while one is, a further
    submission attempt changes nothing and sends nothing; when the request
    completes, none is outstanding.  The retrieval component has no such
    guard. *)
Theorem C2_chat_one_outstanding_request :
  forall s : Chat.System,
    Chat.reachable s ->
    (length (Chat.waiting s) <= 1)%nat
    /\ (Chat.waiting s <> [] ->
        Chat.sendMessage (Chat.ui s) = (Chat.ui s, None)
        /\ Chat.step s Chat.Send = s
        /\ forall n h t,
             Chat.waiting s !! n = Some h ->
             Chat.waiting (Chat.step s (Chat.Settle n t)) = []
             /\ Chat.isLoading (Chat.ui (Chat.step s (Chat.Settle n t))) = false).
Proof.
  intros s Hr. pose proof (chat_reachable_invariant s Hr) as Hinv.
  unfold chat_invariant in Hinv.
  destruct (Chat.waiting s) as [|h [|h' w]] eqn:Hw; [| |done].
  - split; [simpl; lia | done].
  - split; [simpl; lia|]. intros _.
    destruct Hinv as (Hload & _).
    assert (Hsend : Chat.sendMessage (Chat.ui s) = (Chat.ui s, None)).
    { unfold Chat.sendMessage. by rewrite Hload, orb_true_r. }
    split; [done|]. split.
    + unfold Chat.step. rewrite Hsend, Hw. by destruct s; simpl in *; subst.
    + intros n h0 t Hn. rewrite <- Hw in Hn.
      by rewrite (chat_step_settle _ n h0 t Hr Hn).
Qed.

Lemma C2_chat_one_outstanding_request_witness :
  Chat.step (Chat.run [Chat.Change (lit "a"); Chat.Send] (Chat.mount None)) Chat.Send =
    Chat.run [Chat.Change (lit "a"); Chat.Send] (Chat.mount None).
Proof.
  refine (proj1 (proj2 (proj2
            (C2_chat_one_outstanding_request
               (Chat.run [Chat.Change (lit "a"); Chat.Send] (Chat.mount None))
               (ex_intro _ None (ex_intro _ _ eq_refl))) _))).
  vm_compute. discriminate.
Defined.

(** C2, as stated, fails in the retrieval component: with the request for
    "a" outstanding, a second submission appends a second user turn and sends
    a second request. *)
Lemma C2_retrieve_second_submission_accepted :
  let a := {| role := user; content := Some (lit "a"); context := None |} in
  let sent := Retrieve.run [Retrieve.Change (lit "a"); Retrieve.Send] (Retrieve.mount None) in
  Retrieve.reachable sent
  /\ length (Retrieve.waiting sent) = 1%nat
  /\ Retrieve.messages (Retrieve.ui (Retrieve.step sent Retrieve.Send)) =
       Retrieve.messages (Retrieve.ui sent) ++ [a]
  /\ Retrieve.requestBody <$> Retrieve.waiting (Retrieve.step sent Retrieve.Send) =
       [ {| Retrieve.query := lit "a"; Retrieve.k := 5 |};
         {| Retrieve.query := lit "a"; Retrieve.k := 5 |} ].
Proof.
  cbv zeta. split; [by exists None; eexists|]. by vm_compute.
Qed.

(** C3.  In the chat component every submission that is sent carries as
    [history] the prior turns, in their order, with assistant mapped to the
    wire role model and user to user, and as [query] the submitted text; the
    turn just appended is not part of it.  From [user "a"; assistant "b"],
    submitting "c" sends the history [user "a"; model "b"] and the query
    "c". *)
Theorem C3_history_is_prior_turns :
  (forall st : Chat.State,
      trim (Chat.input st) <> [] -> Chat.isLoading st = false ->
      exists st' h,
        Chat.sendMessage st = (st', Some h)
        /\ Chat.history (Chat.requestBody h) = Chat.toBackend <$> Chat.messages st
        /\ Chat.query (Chat.requestBody h) = Chat.input st
        /\ Chat.messages st' =
             Chat.messages st ++
               [ {| role := user; content := Some (Chat.input st); context := None |} ]
        /\ Chat.history (Chat.requestBody h) =
             Chat.toBackend <$>
               take (length (Chat.messages st') - 1) (Chat.messages st'))
  /\ (forall msg : ChatMessage,
        wire_role (Chat.toBackend msg) =
          match role msg with
          | assistant => wire_model
          | user => wire_user
          end
        /\ text (Chat.toBackend msg) = content msg)
  /\ (forall c1 c2,
        exists st' h,
          Chat.sendMessage
            {| Chat.messages :=
                 [ {| role := user; content := Some (lit "a"); context := c1 |};
                   {| role := assistant; content := Some (lit "b"); context := c2 |} ];
               Chat.input := lit "c";
               Chat.isLoading := false |} = (st', Some h)
          /\ Chat.history (Chat.requestBody h) =
               [ {| wire_role := wire_user; text := Some (lit "a") |};
                 {| wire_role := wire_model; text := Some (lit "b") |} ]
          /\ Chat.query (Chat.requestBody h) = lit "c").
Proof.
  split; [|split].
  - intros st Ht Hl. rewrite (chat_sendMessage_accepts st Ht Hl).
    eexists _, _. split; [reflexivity|]. cbn.
    repeat split.
    rewrite length_app. cbn.
    replace (length (Chat.messages st) + 1 - 1)%nat
      with (length (Chat.messages st)) by lia.
    by rewrite take_app_length.
  - by intros msg.
  - intros c1 c2. eexists _, _. split; [reflexivity|]. by split.
Qed.

Lemma C3_history_is_prior_turns_witness :
  exists st' h,
    Chat.sendMessage
      {| Chat.messages :=
           [ {| role := user; content := Some (lit "a"); context := None |};
             {| role := assistant; content := Some (lit "b"); context := Some [] |} ];
         Chat.input := lit "c";
         Chat.isLoading := false |} = (st', Some h)
    /\ Chat.history (Chat.requestBody h) =
         [ {| wire_role := wire_user; text := Some (lit "a") |};
           {| wire_role := wire_model; text := Some (lit "b") |} ]
    /\ Chat.query (Chat.requestBody h) = lit "c".
Proof.
  destruct (proj1 C3_history_is_prior_turns
              {| Chat.messages :=
                   [ {| role := user; content := Some (lit "a"); context := None |};
                     {| role := assistant; content := Some (lit "b"); context := Some [] |} ];
                 Chat.input := lit "c";
                 Chat.isLoading := false |})
    as (st' & h & Hsend & Hhist & Hquery & _).
  - vm_compute. discriminate.
  - reflexivity.
  - exists st', h. split; [exact Hsend|]. split; [exact Hhist | exact Hquery].
Defined.

(** C4.  A request that succeeds adds exactly one assistant turn, after the
    user turn; its context is the context the backend sent in the response
    body, or the empty sequence when the body has none or has null, and in no
    case is the stored context missing.  In the chat component a request
    succeeds when the status is accepted and the body is not null; in the
    retrieval component when the status is accepted, where a null body
    counts as one without context. *)
Theorem C4_success_appends_turn_with_context :
  (forall (s : Chat.System) n h t response bcontext,
      Chat.reachable s -> Chat.waiting s !! n = Some h ->
      axios_post t = Resolved (BodyFields response bcontext) ->
      exists reply,
        Chat.messages (Chat.ui (Chat.step s (Chat.Settle n t))) =
          Chat.messages (Chat.ui s) ++ [reply]
        /\ role reply = assistant
        /\ content reply = response
        /\ context reply =
             Some match bcontext with
                  | Some c => c
                  | None => []
                  end)
  /\ (forall (s : Retrieve.System) n h t response bcontext,
        Retrieve.waiting s !! n = Some h ->
        axios_post t = Resolved (BodyFields response bcontext) ->
        exists reply,
          Retrieve.messages (Retrieve.ui (Retrieve.step s (Retrieve.Settle n t))) =
            Retrieve.messages (Retrieve.ui s) ++ [reply]
          /\ role reply = assistant
          /\ context reply =
               Some match bcontext with
                    | Some c => c
                    | None => []
                    end)
  /\ (forall (s : Retrieve.System) n h t,
        Retrieve.waiting s !! n = Some h ->
        axios_post t = Resolved BodyNull ->
        exists reply,
          Retrieve.messages (Retrieve.ui (Retrieve.step s (Retrieve.Settle n t))) =
            Retrieve.messages (Retrieve.ui s) ++ [reply]
          /\ role reply = assistant
          /\ context reply = Some []).
Proof.
  split; [|split].
  - intros s n h t response bcontext Hr Hn Hres.
    destruct (chat_reachable_waiting s n h Hr Hn) as (_ & _ & Hp).
    rewrite (chat_step_settle s n h t Hr Hn), Hres.
    destruct Hp as (_ & _ & -> & _). cbn.
    eexists. rewrite <- app_assoc. split; [reflexivity|]. by repeat split.
  - intros s n h t response bcontext Hn Hres.
    rewrite (retrieve_step_settle s n h t Hn). cbn.
    rewrite retrieve_settle_messages, Hres.
    eexists. split; [reflexivity|]. by split.
  - intros s n h t Hn Hres.
    rewrite (retrieve_step_settle s n h t Hn). cbn.
    rewrite retrieve_settle_messages, Hres.
    eexists. split; [reflexivity|]. by split.
Qed.

Lemma C4_success_appends_turn_with_context_witness :
  (exists reply,
      Chat.messages
        (Chat.ui
           (Chat.run
              [Chat.Change (lit "a"); Chat.Send;
               Chat.Settle 0
                 (HttpResponse 200
                    (BodyFields (Some (lit "b"))
                       (Some [contested_industry; sbir_applicant])))]
              (Chat.mount None))) =
        [ {| role := user; content := Some (lit "a"); context := None |}; reply ]
      /\ role reply = assistant
      /\ content reply = Some (lit "b")
      /\ context reply = Some [contested_industry; sbir_applicant])
  /\ (exists reply,
        Retrieve.messages
          (Retrieve.ui
             (Retrieve.run
                [Retrieve.Change (lit "a"); Retrieve.Send;
                 Retrieve.Settle 0
                   (HttpResponse 200
                      (BodyFields (Some (lit "b")) (Some [sbir_applicant])))]
                (Retrieve.mount None))) =
          [ {| role := assistant;
               content := Some (lit "Ask a query to retrieve risk findings.");
               context := None |};
            {| role := user; content := Some (lit "a"); context := None |};
            reply ]
        /\ role reply = assistant
        /\ context reply = Some [sbir_applicant])
  /\ (exists reply,
        Retrieve.messages
          (Retrieve.ui
             (Retrieve.run
                [Retrieve.Change (lit "a"); Retrieve.Send;
                 Retrieve.Settle 0 (HttpResponse 200 BodyNull)]
                (Retrieve.mount None))) =
          [ {| role := assistant;
               content := Some (lit "Ask a query to retrieve risk findings.");
               context := None |};
            {| role := user; content := Some (lit "a"); context := None |};
            reply ]
        /\ role reply = assistant
        /\ context reply = Some []).
Proof.
  destruct C4_success_appends_turn_with_context as (Hchat & Hretrieve & Hnull).
  split; [|split].
  - exact (Hchat
             (Chat.run [Chat.Change (lit "a"); Chat.Send] (Chat.mount None))
             0%nat _
             (HttpResponse 200
                (BodyFields (Some (lit "b"))
                   (Some [contested_industry; sbir_applicant]))) _ _
             (ex_intro _ None (ex_intro _ _ eq_refl)) eq_refl eq_refl).
  - exact (Hretrieve
             (Retrieve.run [Retrieve.Change (lit "a"); Retrieve.Send]
                (Retrieve.mount None))
             0%nat _
             (HttpResponse 200
                (BodyFields (Some (lit "b")) (Some [sbir_applicant]))) _ _
             eq_refl eq_refl).
  - exact (Hnull
             (Retrieve.run [Retrieve.Change (lit "a"); Retrieve.Send]
                (Retrieve.mount None))
             0%nat _ (HttpResponse 200 BodyNull) eq_refl eq_refl).
Defined.

(** C5, as the code has it.  A network failure and a response whose status
    is not 2xx are failures: the [catch] block runs, in both components, and
    so it does in the chat component for a null body.  A 2xx body without
    the [response] field is no failure in the retrieval component, which
    answers it with an ordinary assistant turn of content "Here are the
    results:". *)
Theorem C5_failures_and_missing_response :
  (forall t, refused t = true ->
      exists error,
        axios_post t = Rejected error
        /\ Chat.newAssistantMessage (axios_post t) = inr error
        /\ forall h st,
             Retrieve.messages (Retrieve.settle h (axios_post t) st) =
               Retrieve.messages st ++ [Retrieve.errorMessage])
  /\ (forall status, validateStatus status = true ->
        exists error,
          Chat.newAssistantMessage (axios_post (HttpResponse status BodyNull)) =
            inr error)
  /\ (forall status bcontext, validateStatus status = true ->
        forall h st,
          Retrieve.messages
            (Retrieve.settle h
               (axios_post (HttpResponse status (BodyFields None bcontext))) st) =
            Retrieve.messages st ++
              [ {| role := assistant;
                   content := Some (lit "Here are the results:");
                   context := Some (or_empty bcontext) |} ]).
Proof.
  split; [|split].
  - intros t Ht. destruct (refused_rejected t Ht) as [error He].
    exists error. rewrite He. split; [done|]. split; [done|].
    intros h st. by rewrite retrieve_settle_messages.
  - intros status Hs. cbn. rewrite Hs. eauto.
  - intros status bcontext Hs h st. cbn. rewrite Hs.
    by rewrite retrieve_settle_messages.
Qed.

Lemma C5_failures_and_missing_response_witness :
  (exists error,
      axios_post (HttpResponse 503 (BodyFields (Some (lit "b")) None)) = Rejected error
      /\ Chat.newAssistantMessage
           (axios_post (HttpResponse 503 (BodyFields (Some (lit "b")) None))) =
           inr error
      /\ forall h st,
           Retrieve.messages
             (Retrieve.settle h
                (axios_post (HttpResponse 503 (BodyFields (Some (lit "b")) None))) st) =
             Retrieve.messages st ++ [Retrieve.errorMessage])
  /\ (exists error,
        Chat.newAssistantMessage (axios_post (HttpResponse 200 BodyNull)) = inr error)
  /\ (forall h st,
        Retrieve.messages
          (Retrieve.settle h (axios_post (HttpResponse 200 (BodyFields None None))) st) =
          Retrieve.messages st ++
            [ {| role := assistant;
                 content := Some (lit "Here are the results:");
                 context := Some [] |} ]).
Proof.
  destruct C5_failures_and_missing_response as (Hrefused & Hnull & Hmissing).
  split; [|split].
  - exact (Hrefused (HttpResponse 503 (BodyFields (Some (lit "b")) None)) eq_refl).
  - exact (Hnull 200 eq_refl).
  - exact (Hmissing 200 None eq_refl).
Defined.

(** C5, as stated, fails in both components: a 200 response whose body has
    no [response] field is answered on the success path.  The retrieval
    component appends the fallback turn, which is not its error turn; the
    chat component keeps the user turn and appends a turn without content,
    which is not an error turn either. *)
Lemma C5_missing_response_is_answered :
  let a := {| role := user; content := Some (lit "a"); context := None |} in
  let malformed := HttpResponse 200 (BodyFields None None) in
  Retrieve.messages
    (Retrieve.ui
       (Retrieve.run
          [Retrieve.Change (lit "a"); Retrieve.Send; Retrieve.Settle 0 malformed]
          (Retrieve.mount None))) =
    [ {| role := assistant;
         content := Some (lit "Ask a query to retrieve risk findings.");
         context := None |};
      a;
      {| role := assistant;
         content := Some (lit "Here are the results:");
         context := Some [] |} ]
  /\ Chat.messages
       (Chat.ui
          (Chat.run [Chat.Change (lit "a"); Chat.Send; Chat.Settle 0 malformed]
             (Chat.mount None))) =
       [ a; {| role := assistant; content := None; context := Some [] |} ]
  /\ (forall error,
        {| role := assistant; content := None; context := Some [] |}
          <> Chat.errorMessage error)
  /\ {| role := assistant;
        content := Some (lit "Here are the results:");
        context := Some [] |} <> Retrieve.errorMessage.
Proof.
  cbv zeta. split; [reflexivity|]. split; [reflexivity|]. split.
  - intros error H. discriminate H.
  - intros H. discriminate H.
Qed.

(** C6, as the code has it.  A seed payload with a non-empty query Q and a
    non-empty context gives one assistant turn with that context; its
    content is [Here are the initial risk findings for: "Q"] in the chat
    component and [Here are the high priority risks for: "Q"] in the
    retrieval component.  Without a seed payload the chat component starts
    with the empty sequence and the retrieval component with one greeting
    turn that carries no context. *)
Theorem C6_initial_sequence :
  (forall (r : InitialResponse) (Q : jsstring) (c : list RiskContextItem),
      seed_query r = Some Q -> Q <> [] ->
      seed_context r = Some c -> c <> [] ->
      Chat.initial_messages (Some r) =
        [ {| role := assistant;
             content :=
               Some (lit "Here are the initial risk findings for: "
                       ++ dquote ++ Q ++ dquote);
             context := Some c |} ]
      /\ Retrieve.initial_messages (Some r) =
           [ {| role := assistant;
                content :=
                  Some (lit "Here are the high priority risks for: "
                          ++ dquote ++ Q ++ dquote);
                context := Some c |} ])
  /\ Chat.initial_messages None = []
  /\ Retrieve.initial_messages None =
       [ {| role := assistant;
            content := Some (lit "Ask a query to retrieve risk findings.");
            context := None |} ]
  /\ context_items
       {| role := assistant;
          content := Some (lit "Ask a query to retrieve risk findings.");
          context := None |} = [].
Proof.
  split; [|by repeat split].
  intros r Q c Hq HQ Hc Hne.
  unfold Chat.initial_messages, Retrieve.initial_messages, if_truthy.
  rewrite Hq, Hc.
  destruct c as [|item c]; [done|]. destruct Q as [|q Q]; [done|].
  by split.
Qed.

Lemma C6_initial_sequence_witness :
  Chat.initial_messages
    (Some {| seed_query := Some (lit "Q");
             seed_status := None;
             seed_count := None;
             seed_context := Some [contested_industry] |}) =
    [ {| role := assistant;
         content := Some (lit "Here are the initial risk findings for: "
                            ++ dquote ++ lit "Q" ++ dquote);
         context := Some [contested_industry] |} ]
  /\ Retrieve.initial_messages (Some initialResponse) =
       [ {| role := assistant;
            content :=
              Some (lit "Here are the high priority risks for: "
                      ++ dquote
                      ++ lit "Which companies are having the high priority risk?"
                      ++ dquote);
            context := Some [contested_industry; sbir_applicant] |} ].
Proof.
  split.
  - refine (proj1 (proj1 C6_initial_sequence
                     {| seed_query := Some (lit "Q");
                        seed_status := None;
                        seed_count := None;
                        seed_context := Some [contested_industry] |}
                     (lit "Q") [contested_industry] eq_refl _ eq_refl _)).
    + vm_compute. discriminate.
    + discriminate.
  - refine (proj2 (proj1 C6_initial_sequence initialResponse
                     (lit "Which companies are having the high priority risk?")
                     [contested_industry; sbir_applicant] eq_refl _ eq_refl _)).
    + vm_compute. discriminate.
    + discriminate.
Defined.

(** C6, as stated, fails in the retrieval component: seeded with the query
    "Q" and one finding, its first turn reads [Here are the high priority
    risks for: "Q"]. *)
Lemma C6_retrieve_seed_wording :
  let seed :=
    {| seed_query := Some (lit "Q");
       seed_status := None;
       seed_count := None;
       seed_context := Some [contested_industry] |} in
  Retrieve.initial_messages (Some seed) =
    [ {| role := assistant;
         content := Some (lit "Here are the high priority risks for: "
                            ++ dquote ++ lit "Q" ++ dquote);
         context := Some [contested_industry] |} ]
  /\ Retrieve.initial_messages (Some seed) <>
       [ {| role := assistant;
            content := Some (lit "Here are the initial risk findings for: "
                               ++ dquote ++ lit "Q" ++ dquote);
            context := Some [contested_industry] |} ].
Proof.
  cbv zeta. split; [reflexivity|].
  vm_compute. intros H. discriminate H.
Qed.

(** C7.  Submitting empty or whitespace-only input is a no-op in both
    components: the state, and with it the turn sequence, is unchanged, and
    no request is sent. *)
Theorem C7_blank_input_is_noop :
  (forall st : Chat.State,
      blank (Chat.input st) -> Chat.sendMessage st = (st, None))
  /\ (forall s : Chat.System,
        blank (Chat.input (Chat.ui s)) -> Chat.step s Chat.Send = s)
  /\ (forall st : Retrieve.State,
        blank (Retrieve.input st) -> Retrieve.sendMessage st = (st, None))
  /\ (forall s : Retrieve.System,
        blank (Retrieve.input (Retrieve.ui s)) -> Retrieve.step s Retrieve.Send = s).
Proof.
  assert (Hchat : forall st : Chat.State,
             blank (Chat.input st) -> Chat.sendMessage st = (st, None)).
  { intros st Hb. apply trim_blank in Hb.
    unfold Chat.sendMessage. by rewrite Hb. }
  assert (Hretrieve : forall st : Retrieve.State,
             blank (Retrieve.input st) -> Retrieve.sendMessage st = (st, None)).
  { intros st Hb. apply trim_blank in Hb.
    unfold Retrieve.sendMessage. by rewrite Hb. }
  repeat split; try done.
  - intros [st w] Hb. unfold Chat.step. cbn in *.
    by rewrite (Hchat st Hb), app_nil_r.
  - intros [st w] Hb. unfold Retrieve.step. cbn in *.
    by rewrite (Hretrieve st Hb), app_nil_r.
Qed.

Lemma C7_blank_input_is_noop_witness :
  Chat.sendMessage
    {| Chat.messages := []; Chat.input := [32; 9; 160]%N; Chat.isLoading := false |} =
    ({| Chat.messages := []; Chat.input := [32; 9; 160]%N; Chat.isLoading := false |},
     None)
  /\ Retrieve.sendMessage
       {| Retrieve.messages := []; Retrieve.input := [] |} =
       ({| Retrieve.messages := []; Retrieve.input := [] |}, None).
Proof.
  destruct C7_blank_input_is_noop as (Hchat & _ & Hretrieve & _).
  split.
  - apply (Hchat {| Chat.messages := []; Chat.input := [32; 9; 160]%N;
                    Chat.isLoading := false |}).
    repeat constructor.
  - apply (Hretrieve {| Retrieve.messages := []; Retrieve.input := [] |}).
    constructor.
Defined.

(** C8.  Whenever the input is non-empty after trimming, the submission
    makes the turn sequence one longer, and its new last element is the user
    turn with the submitted text.  In the chat component this holds in every
    reachable state, where text in the input field implies that no request is
    outstanding; in the retrieval component it holds in every state. *)
Theorem C8_submission_appends_user_turn :
  (forall s : Chat.System,
      Chat.reachable s -> trim (Chat.input (Chat.ui s)) <> [] ->
      exists st' h,
        Chat.sendMessage (Chat.ui s) = (st', Some h)
        /\ Chat.messages st' =
             Chat.messages (Chat.ui s) ++
               [ {| role := user;
                    content := Some (Chat.input (Chat.ui s));
                    context := None |} ]
        /\ length (Chat.messages st') = S (length (Chat.messages (Chat.ui s)))
        /\ last (Chat.messages st') =
             Some {| role := user;
                     content := Some (Chat.input (Chat.ui s));
                     context := None |})
  /\ (forall st : Retrieve.State,
        trim (Retrieve.input st) <> [] ->
        exists st' h,
          Retrieve.sendMessage st = (st', Some h)
          /\ Retrieve.messages st' =
               Retrieve.messages st ++
                 [ {| role := user;
                      content := Some (Retrieve.input st);
                      context := None |} ]
          /\ length (Retrieve.messages st') = S (length (Retrieve.messages st))
          /\ last (Retrieve.messages st') =
               Some {| role := user;
                       content := Some (Retrieve.input st);
                       context := None |}).
Proof.
  split.
  - intros s Hr Ht.
    rewrite (chat_sendMessage_accepts _ Ht (chat_reachable_input_idle s Hr Ht)).
    eexists _, _. split; [reflexivity|]. cbn.
    split; [done|]. split; [|apply last_snoc].
    rewrite length_app. simpl. lia.
  - intros st Ht. rewrite (retrieve_sendMessage_accepts _ Ht).
    eexists _, _. split; [reflexivity|]. cbn.
    split; [done|]. split; [|apply last_snoc].
    rewrite length_app. simpl. lia.
Qed.

Lemma C8_submission_appends_user_turn_witness :
  (exists st' h,
      Chat.sendMessage
        (Chat.ui (Chat.run [Chat.Change (lit " a ")] (Chat.mount None))) =
        (st', Some h)
      /\ Chat.messages st' =
           [ {| role := user; content := Some (lit " a "); context := None |} ]
      /\ length (Chat.messages st') = 1%nat
      /\ last (Chat.messages st') =
           Some {| role := user; content := Some (lit " a "); context := None |})
  /\ (exists st' h,
        Retrieve.sendMessage
          {| Retrieve.messages := []; Retrieve.input := lit " a " |} = (st', Some h)
        /\ Retrieve.messages st' =
             [ {| role := user; content := Some (lit " a "); context := None |} ]
        /\ length (Retrieve.messages st') = 1%nat
        /\ last (Retrieve.messages st') =
             Some {| role := user; content := Some (lit " a "); context := None |}).
Proof.
  destruct C8_submission_appends_user_turn as [Hchat Hretrieve].
  split.
  - apply (Hchat (Chat.run [Chat.Change (lit " a ")] (Chat.mount None))).
    + exists None. eexists. reflexivity.
    + vm_compute. discriminate.
  - apply (Hretrieve {| Retrieve.messages := []; Retrieve.input := lit " a " |}).
    vm_compute. discriminate.
Defined.

(** C9.  Resuming a handler changes at most the last element of the turn
    sequence.  The turns that were there when the request was submitted,
    before the optimistic user turn, are still there afterwards, unchanged
    and in order, whether the request succeeded or failed. *)
Theorem C9_resolution_keeps_prior_turns :
  (forall (st : Chat.State) h o,
      take (length (Chat.messages st) - 1) (Chat.messages st)
        `prefix_of` Chat.messages (Chat.settle h o st))
  /\ (forall (s : Chat.System) n h t,
        Chat.reachable s -> Chat.waiting s !! n = Some h ->
        Chat.messages (Chat.ui s) = Chat.seen h ++ [Chat.newUserMessage h]
        /\ Chat.seen h
             `prefix_of` Chat.messages (Chat.ui (Chat.step s (Chat.Settle n t))))
  /\ (forall (s : Retrieve.System) n h t,
        Retrieve.reachable s -> Retrieve.waiting s !! n = Some h ->
        Retrieve.seen h ++ [Retrieve.userMessage h]
          `prefix_of` Retrieve.messages (Retrieve.ui s)
        /\ Retrieve.messages (Retrieve.ui s)
             `prefix_of`
             Retrieve.messages (Retrieve.ui (Retrieve.step s (Retrieve.Settle n t)))
        /\ Retrieve.seen h
             `prefix_of`
             Retrieve.messages (Retrieve.ui (Retrieve.step s (Retrieve.Settle n t)))).
Proof.
  split; [|split].
  - intros st h o. unfold Chat.settle, Chat.setIsLoading, Chat.setMessages.
    destruct (Chat.newAssistantMessage o); cbn;
      rewrite slice_init; by apply prefix_app_r.
  - intros s n h t Hr Hn.
    destruct (chat_reachable_waiting s n h Hr Hn) as (_ & _ & Hp).
    rewrite (chat_step_settle s n h t Hr Hn). cbn.
    destruct Hp as (_ & _ & Hmsg & _). split; [done|].
    by apply prefix_app_r.
  - intros s n h t Hr Hn.
    destruct (retrieve_reachable_waiting s n h Hr Hn) as [Hpre _].
    pose proof (retrieve_step_prefix s (Retrieve.Settle n t)) as Hstep.
    split; [done|]. split; [done|].
    etrans; [|exact Hstep]. by eapply prefix_app_l.
Qed.

Lemma C9_resolution_keeps_prior_turns_witness :
  Chat.initial_messages (Some initialResponse)
    `prefix_of`
    Chat.messages
      (Chat.ui
         (Chat.run
            [Chat.Change (lit "a"); Chat.Send;
             Chat.Settle 0 (HttpResponse 500 BodyNull)]
            (Chat.mount (Some initialResponse))))
  /\ Retrieve.initial_messages (Some initialResponse)
       `prefix_of`
       Retrieve.messages
         (Retrieve.ui
            (Retrieve.run
               [Retrieve.Change (lit "a"); Retrieve.Send; Retrieve.Send;
                Retrieve.Settle 1 (HttpResponse 500 BodyNull)]
               (Retrieve.mount (Some initialResponse)))).
Proof.
  destruct C9_resolution_keeps_prior_turns as (_ & Hchat & Hretrieve).
  split.
  - exact (proj2
             (Hchat
                (Chat.run [Chat.Change (lit "a"); Chat.Send]
                   (Chat.mount (Some initialResponse)))
                0%nat _ (HttpResponse 500 BodyNull)
                (ex_intro _ (Some initialResponse) (ex_intro _ _ eq_refl))
                eq_refl)).
  - refine (prefix_app_l _ _ _
              (proj2 (proj2
                 (Hretrieve
                    (Retrieve.run
                       [Retrieve.Change (lit "a"); Retrieve.Send; Retrieve.Send]
                       (Retrieve.mount (Some initialResponse)))
                    1%nat _ (HttpResponse 500 BodyNull)
                    (ex_intro _ (Some initialResponse) (ex_intro _ _ eq_refl))
                    eq_refl)))).
Defined.

(** C10, as the code has it.  Once a submission of input that is non-empty
    after trimming has completed, the input buffer is the empty string, after
    a success as after a failure.  The submitted text is then the content of
    the appended user turn, except after a failure in the chat component,
    where the user turn has been rolled back and the sequence is the prior
    turns followed by the error turn. *)
Theorem C10_input_empty_after_completion :
  (forall (s : Chat.System) n h t,
      Chat.reachable s -> Chat.waiting s !! n = Some h ->
      Chat.input (Chat.ui s) = []
      /\ Chat.input (Chat.ui (Chat.step s (Chat.Settle n t))) = []
      /\ Chat.newUserMessage h =
           {| role := user;
              content := Some (Chat.query (Chat.requestBody h));
              context := None |}
      /\ match Chat.newAssistantMessage (axios_post t) with
         | inl reply =>
             Chat.messages (Chat.ui (Chat.step s (Chat.Settle n t))) =
               Chat.seen h ++ [Chat.newUserMessage h; reply]
         | inr error =>
             Chat.messages (Chat.ui (Chat.step s (Chat.Settle n t))) =
               Chat.seen h ++ [Chat.errorMessage error]
         end)
  /\ (forall (s : Retrieve.System) n h t,
        Retrieve.reachable s -> Retrieve.waiting s !! n = Some h ->
        Retrieve.input (Retrieve.ui (Retrieve.step s (Retrieve.Settle n t))) = []
        /\ Retrieve.userMessage h =
             {| role := user;
                content := Some (Retrieve.query (Retrieve.requestBody h));
                context := None |}
        /\ Retrieve.messages (Retrieve.ui (Retrieve.step s (Retrieve.Settle n t)))
             !! length (Retrieve.seen h) = Some (Retrieve.userMessage h)).
Proof.
  split.
  - intros s n h t Hr Hn.
    destruct (chat_reachable_waiting s n h Hr Hn) as (_ & _ & Hp).
    rewrite (chat_step_settle s n h t Hr Hn). cbn.
    destruct Hp as (_ & Hin & _ & _ & Hu & _).
    repeat split; try done.
    by destruct (Chat.newAssistantMessage (axios_post t)).
  - intros s n h t Hr Hn.
    destruct (retrieve_reachable_waiting s n h Hr Hn) as [Hpre Hu].
    pose proof (retrieve_step_prefix s (Retrieve.Settle n t)) as Hstep.
    split; [|split; [done|]].
    + rewrite (retrieve_step_settle s n h t Hn). cbn.
      unfold Retrieve.settle. by destruct (axios_post t).
    + eapply prefix_lookup_Some; [|etrans; [exact Hpre | exact Hstep]].
      by apply list_lookup_middle.
Qed.

Lemma C10_input_empty_after_completion_witness :
  Chat.input
    (Chat.ui
       (Chat.run
          [Chat.Change (lit "a"); Chat.Send;
           Chat.Settle 0 (HttpResponse 200 (BodyFields (Some (lit "b")) None))]
          (Chat.mount None))) = []
  /\ Retrieve.input
       (Retrieve.ui
          (Retrieve.run
             [Retrieve.Change (lit "a"); Retrieve.Send; Retrieve.Change (lit "abc");
              Retrieve.Settle 0 (HttpResponse 500 BodyNull)]
             (Retrieve.mount None))) = []
  /\ Retrieve.messages
       (Retrieve.ui
          (Retrieve.run
             [Retrieve.Change (lit "a"); Retrieve.Send; Retrieve.Change (lit "abc");
              Retrieve.Settle 0 (HttpResponse 500 BodyNull)]
             (Retrieve.mount None))) !! 1%nat =
       Some {| role := user; content := Some (lit "a"); context := None |}.
Proof.
  destruct C10_input_empty_after_completion as [Hchat Hretrieve].
  split; [|split].
  - exact (proj1 (proj2
             (Hchat
                (Chat.run [Chat.Change (lit "a"); Chat.Send] (Chat.mount None))
                0%nat _ (HttpResponse 200 (BodyFields (Some (lit "b")) None))
                (ex_intro _ None (ex_intro _ _ eq_refl)) eq_refl))).
  - exact (proj1
             (Hretrieve
                (Retrieve.run
                   [Retrieve.Change (lit "a"); Retrieve.Send;
                    Retrieve.Change (lit "abc")]
                   (Retrieve.mount None))
                0%nat _ (HttpResponse 500 BodyNull)
                (ex_intro _ None (ex_intro _ _ eq_refl)) eq_refl)).
  - exact (proj2 (proj2
             (Hretrieve
                (Retrieve.run
                   [Retrieve.Change (lit "a"); Retrieve.Send;
                    Retrieve.Change (lit "abc")]
                   (Retrieve.mount None))
                0%nat _ (HttpResponse 500 BodyNull)
                (ex_intro _ None (ex_intro _ _ eq_refl)) eq_refl))).
Defined.

(** C10, as stated, fails in the chat component after a failure: the input
    buffer is empty, but no user turn is left to hold the submitted text. *)
Lemma C10_chat_failure_keeps_no_user_turn :
  let final :=
    Chat.ui
      (Chat.run
         [Chat.Change (lit "a"); Chat.Send;
          Chat.Settle 0 (HttpResponse 500 BodyNull)]
         (Chat.mount None)) in
  Chat.input final = []
  /\ Chat.messages final =
       [ {| role := assistant;
            content :=
              Some (lit "Sorry, an error occurred while processing your query. (Error: AxiosError: Request failed with status code 500)");
            context := None |} ]
  /\ ~ (exists m, m ∈ Chat.messages final /\ role m = user).
Proof.
  cbv zeta. split; [reflexivity|]. split; [reflexivity|].
  intros (m & Hin & Hrole).
  apply list_elem_of_singleton in Hin. subst m. discriminate Hrole.
Qed.

(** * Further properties of the chat component *)

(** X1.  In every reachable state of the chat component the loading flag is
    set exactly while a request is outstanding, and while it is set the input
    field is empty. *)
Theorem X1_chat_loading_iff_outstanding :
  forall s : Chat.System,
    Chat.reachable s ->
    (Chat.isLoading (Chat.ui s) = true <-> Chat.waiting s <> [])
    /\ (Chat.isLoading (Chat.ui s) = true -> Chat.input (Chat.ui s) = []).
Proof.
  intros s Hr. apply chat_reachable_invariant in Hr.
  unfold chat_invariant in Hr.
  destruct (Chat.waiting s) as [|h [|h' w]]; [| |done].
  - destruct Hr as [Hload _]. rewrite Hload. by repeat split.
  - destruct Hr as (Hload & Hin & _). by repeat split.
Qed.

Lemma X1_chat_loading_iff_outstanding_witness :
  Chat.isLoading
    (Chat.ui (Chat.run [Chat.Change (lit "a"); Chat.Send] (Chat.mount None))) = true
  <-> Chat.waiting (Chat.run [Chat.Change (lit "a"); Chat.Send] (Chat.mount None))
      <> [].
Proof.
  exact (proj1
           (X1_chat_loading_iff_outstanding
              (Chat.run [Chat.Change (lit "a"); Chat.Send] (Chat.mount None))
              (ex_intro _ None (ex_intro _ _ eq_refl)))).
Defined.

(** X2.  In every reachable state of the chat component with nothing
    outstanding, every user turn is immediately followed by an assistant
    turn; while a request is outstanding, the only user turn without one is
    the last turn of the sequence. *)
Theorem X2_chat_user_turns_answered :
  forall s : Chat.System,
    Chat.reachable s ->
    (Chat.waiting s = [] -> answered (Chat.messages (Chat.ui s)) = true)
    /\ (forall h, Chat.waiting s = [h] ->
          Chat.messages (Chat.ui s) = Chat.seen h ++ [Chat.newUserMessage h]
          /\ answered (Chat.seen h) = true
          /\ role (Chat.newUserMessage h) = user).
Proof.
  intros s Hr. apply chat_reachable_invariant in Hr.
  unfold chat_invariant in Hr. split.
  - intros Hw. rewrite Hw in Hr. by destruct Hr.
  - intros h Hw. rewrite Hw in Hr.
    destruct Hr as (_ & _ & Hmsg & Hans & Hu & _).
    split; [exact Hmsg|]. split; [exact Hans|]. by rewrite Hu.
Qed.

Lemma X2_chat_user_turns_answered_witness :
  answered
    (Chat.messages
       (Chat.ui
          (Chat.run
             [Chat.Change (lit "a"); Chat.Send;
              Chat.Settle 0 (HttpResponse 500 BodyNull);
              Chat.Change (lit "b"); Chat.Send;
              Chat.Settle 0 (HttpResponse 200 (BodyFields (Some (lit "c")) None))]
             (Chat.mount (Some initialResponse))))) = true.
Proof.
  refine (proj1 (X2_chat_user_turns_answered _
                   (ex_intro _ (Some initialResponse) (ex_intro _ _ eq_refl))) _).
  reflexivity.
Defined.

(** X3.  The guard of the chat component works through a render.  When
    [sendMessage] has accepted a submission, its handler of the next render
    changes nothing and sends nothing; the handler of the same render,
    invoked again before React has rendered, passes the guard again, appends
    the user turn a second time and sends the same request again. *)
Theorem X3_chat_guard_needs_render :
  (forall st : Chat.State, ChatRender.sendMessage st st = Chat.sendMessage st)
  /\ (forall (st st1 : Chat.State) (h1 : Chat.Suspended),
        Chat.sendMessage st = (st1, Some h1) ->
        Chat.sendMessage st1 = (st1, None)
        /\ exists st2 h2,
             ChatRender.sendMessage st st1 = (st2, Some h2)
             /\ Chat.requestBody h2 = Chat.requestBody h1
             /\ Chat.messages st2 =
                  Chat.messages st ++ [Chat.newUserMessage h1; Chat.newUserMessage h1]).
Proof.
  split; [done|].
  intros st st1 h1 Hsend.
  unfold Chat.sendMessage in Hsend. unfold ChatRender.sendMessage.
  destruct (negb (truthy (trim (Chat.input st))) || Chat.isLoading st) eqn:Hg;
    [done|].
  injection Hsend as <- <-. split; [reflexivity|].
  eexists _, _. split; [reflexivity|]. cbn.
  split; [done|]. by rewrite <- app_assoc.
Qed.

Lemma X3_chat_guard_needs_render_witness :
  Chat.sendMessage
    {| Chat.messages :=
         [ {| role := user; content := Some (lit "a"); context := None |} ];
       Chat.input := [];
       Chat.isLoading := true |} =
    ({| Chat.messages :=
          [ {| role := user; content := Some (lit "a"); context := None |} ];
        Chat.input := [];
        Chat.isLoading := true |}, None)
  /\ exists st2 h2,
       ChatRender.sendMessage
         {| Chat.messages := []; Chat.input := lit "a"; Chat.isLoading := false |}
         {| Chat.messages :=
              [ {| role := user; content := Some (lit "a"); context := None |} ];
            Chat.input := [];
            Chat.isLoading := true |} = (st2, Some h2)
       /\ Chat.requestBody h2 =
            {| Chat.query := lit "a"; Chat.history := []; Chat.k := 5 |}
       /\ Chat.messages st2 =
            [ {| role := user; content := Some (lit "a"); context := None |};
              {| role := user; content := Some (lit "a"); context := None |} ].
Proof.
  exact (proj2 X3_chat_guard_needs_render
           {| Chat.messages := []; Chat.input := lit "a"; Chat.isLoading := false |}
           _ _ eq_refl).
Defined.

Lemma chat_completed_messages s :
  chat_invariant s -> chat_completed s `prefix_of` Chat.messages (Chat.ui s).
Proof.
  unfold chat_invariant, chat_completed.
  destruct (Chat.waiting s) as [|h [|h' w]]; [done| |done].
  intros (_ & _ & -> & _). by apply prefix_app_r.
Qed.

Lemma chat_completed_step s e :
  Chat.reachable s -> chat_completed s `prefix_of` chat_completed (Chat.step s e).
Proof.
  intros Hr. pose proof (chat_reachable_invariant s Hr) as Hinv.
  destruct e as [value| |n t].
  - unfold chat_completed, Chat.step.
    destruct (Chat.isLoading (Chat.ui s)); [done|]. cbn.
    by destruct (Chat.waiting s) as [|h [|h' w]].
  - unfold chat_invariant in Hinv. unfold chat_completed, Chat.step.
    destruct (Chat.waiting s) as [|h [|h' w]] eqn:Hw; [| |done].
    + destruct Hinv as [Hload _].
      unfold Chat.sendMessage. rewrite Hload, orb_false_r.
      by destruct (truthy (trim (Chat.input (Chat.ui s)))).
    + destruct Hinv as [Hload _].
      unfold Chat.sendMessage. by rewrite Hload, orb_true_r.
  - destruct (Chat.waiting s !! n) as [h|] eqn:Hn.
    + destruct (chat_reachable_waiting s n h Hr Hn) as (_ & Hw & _).
      rewrite (chat_step_settle s n h t Hr Hn).
      unfold chat_completed. rewrite Hw. cbn. by apply prefix_app_r.
    + unfold Chat.step. by rewrite Hn.
Qed.

Lemma chat_completed_run es s :
  Chat.reachable s -> chat_completed s `prefix_of` chat_completed (Chat.run es s).
Proof.
  unfold Chat.run. revert s.
  induction es as [|e es IH]; intros s Hr; simpl; [done|].
  etrans; [by apply chat_completed_step|].
  by apply IH, chat_reachable_step.
Qed.

Lemma chat_reachable_run es s : Chat.reachable s -> Chat.reachable (Chat.run es s).
Proof.
  intros (r & es0 & ->). exists r, (es0 ++ es).
  unfold Chat.run. by rewrite foldl_app.
Qed.

(** X4.  The chat component never alters a completed exchange.  The turns
    of a reachable state with nothing outstanding, and the turns before the
    optimistic user turn of one with a request outstanding, stay a prefix of
    the sequence whatever happens next; so the seeded turns are never
    removed. *)
Theorem X4_chat_completed_turns_are_kept :
  forall (s : Chat.System) (es : list Chat.Event),
    Chat.reachable s ->
    (Chat.waiting s = [] ->
     Chat.messages (Chat.ui s) `prefix_of` Chat.messages (Chat.ui (Chat.run es s)))
    /\ (forall h, Chat.waiting s = [h] ->
          Chat.seen h `prefix_of` Chat.messages (Chat.ui (Chat.run es s))).
Proof.
  intros s es Hr.
  assert (Hpre : chat_completed s `prefix_of` Chat.messages (Chat.ui (Chat.run es s))).
  { etrans; [by apply chat_completed_run|].
    by apply chat_completed_messages, chat_reachable_invariant, chat_reachable_run. }
  unfold chat_completed in Hpre. split.
  - intros Hw. by rewrite Hw in Hpre.
  - intros h Hw. by rewrite Hw in Hpre.
Qed.

Lemma X4_chat_completed_turns_are_kept_witness :
  Chat.initial_messages (Some initialResponse)
    `prefix_of`
    Chat.messages
      (Chat.ui
         (Chat.run
            [Chat.Change (lit "a"); Chat.Send;
             Chat.Settle 0 (HttpResponse 500 BodyNull);
             Chat.Change (lit "b"); Chat.Send]
            (Chat.mount (Some initialResponse)))).
Proof.
  exact (proj1
           (X4_chat_completed_turns_are_kept
              (Chat.mount (Some initialResponse))
              [Chat.Change (lit "a"); Chat.Send;
               Chat.Settle 0 (HttpResponse 500 BodyNull);
               Chat.Change (lit "b"); Chat.Send]
              (ex_intro _ (Some initialResponse) (ex_intro _ [] eq_refl)))
           eq_refl).
Defined.

(** X5.  In the chat component the history of the next request extends the
    history of the one before: by the user turn and the reply after a
    success, and by the error turn alone, as a model turn, after a failure,
    where the failed question is forgotten. *)
Theorem X5_chat_next_history :
  forall (s : Chat.System) n h t (value : jsstring),
    Chat.reachable s -> Chat.waiting s !! n = Some h -> trim value <> [] ->
    exists h',
      Chat.waiting
        (Chat.run [Chat.Settle n t; Chat.Change value; Chat.Send] s) = [h']
      /\ Chat.query (Chat.requestBody h') = value
      /\ Chat.history (Chat.requestBody h') =
           Chat.history (Chat.requestBody h) ++
             match Chat.newAssistantMessage (axios_post t) with
             | inl reply =>
                 [ {| wire_role := wire_user;
                      text := Some (Chat.query (Chat.requestBody h)) |};
                   {| wire_role := wire_model; text := content reply |} ]
             | inr error =>
                 [ {| wire_role := wire_model;
                      text :=
                        Some (lit "Sorry, an error occurred while processing your query. (Error: "
                                ++ error_or_unknown error ++ lit ")") |} ]
             end.
Proof.
  intros s n h t value Hr Hn Hv.
  destruct (chat_reachable_waiting s n h Hr Hn) as (_ & _ & Hp).
  destruct Hp as (_ & _ & _ & _ & Hu & Hh).
  unfold Chat.run. cbn [foldl].
  rewrite (chat_step_settle s n h t Hr Hn).
  unfold Chat.step at 2. cbn.
  unfold Chat.step. cbn.
  rewrite chat_sendMessage_accepts by done. cbn.
  eexists. split; [reflexivity|]. cbn. split; [done|].
  rewrite fmap_app, Hh. f_equal.
  destruct (Chat.newAssistantMessage (axios_post t)) as [reply|error] eqn:Hreply.
  - cbn. rewrite Hu. unfold Chat.toBackend. cbn.
    by rewrite (chat_newAssistantMessage_role _ _ Hreply).
  - done.
Qed.

Lemma X5_chat_next_history_witness :
  exists h',
    Chat.waiting
      (Chat.run
         [Chat.Settle 0 (HttpResponse 200 (BodyFields (Some (lit "b")) None));
          Chat.Change (lit "c"); Chat.Send]
         (Chat.run [Chat.Change (lit "a"); Chat.Send] (Chat.mount None))) = [h']
    /\ Chat.query (Chat.requestBody h') = lit "c"
    /\ Chat.history (Chat.requestBody h') =
         [ {| wire_role := wire_user; text := Some (lit "a") |};
           {| wire_role := wire_model; text := Some (lit "b") |} ].
Proof.
  refine (X5_chat_next_history
            (Chat.run [Chat.Change (lit "a"); Chat.Send] (Chat.mount None))
            0%nat _ (HttpResponse 200 (BodyFields (Some (lit "b")) None)) (lit "c")
            (ex_intro _ None (ex_intro _ _ eq_refl)) eq_refl _).
  vm_compute. discriminate.
Defined.

(** * Further properties of the retrieval component *)

Lemma retrieve_step_length s e :
  (length (Retrieve.messages (Retrieve.ui (Retrieve.step s e)))
   <= S (length (Retrieve.messages (Retrieve.ui s))))%nat.
Proof.
  destruct e as [value| |n t]; cbn.
  - lia.
  - unfold Retrieve.sendMessage.
    destruct (negb _); cbn; [lia|]. rewrite length_app. simpl. lia.
  - destruct (Retrieve.waiting s !! n) as [h|]; cbn; [|lia].
    rewrite retrieve_settle_messages, length_app. simpl. lia.
Qed.

(** X6.  The retrieval component only ever appends: whatever the state and
    whatever happens, the turns present stay as they are, as a prefix of the
    later sequence, and each event adds at most one turn. *)
Theorem X6_retrieve_append_only :
  forall (s : Retrieve.System) (es : list Retrieve.Event),
    Retrieve.messages (Retrieve.ui s)
      `prefix_of` Retrieve.messages (Retrieve.ui (Retrieve.run es s))
    /\ (length (Retrieve.messages (Retrieve.ui (Retrieve.run es s)))
        <= length (Retrieve.messages (Retrieve.ui s)) + length es)%nat.
Proof.
  intros s es. unfold Retrieve.run. revert s.
  induction es as [|e es IH]; intros s; simpl.
  - split; [done | lia].
  - destruct (IH (Retrieve.step s e)) as [Hpre Hlen]. split.
    + etrans; [apply retrieve_step_prefix | exact Hpre].
    + pose proof (retrieve_step_length s e). lia.
Qed.

#[local] Arguments turns_of : simpl never.

Lemma turns_of_app r l1 l2 : turns_of r (l1 ++ l2) = (turns_of r l1 + turns_of r l2)%nat.
Proof. unfold turns_of. by rewrite List.filter_app, length_app. Qed.

Lemma retrieve_initial_turns r :
  turns_of user (Retrieve.initial_messages r) = 0%nat
  /\ turns_of assistant (Retrieve.initial_messages r) = 1%nat.
Proof.
  unfold Retrieve.initial_messages.
  destruct r as [r|]; [|done].
  destruct (seed_context r) as [c|]; [|done].
  by destruct (negb _).
Qed.

Lemma retrieve_step_balance s e :
  (turns_of user (Retrieve.messages (Retrieve.ui s)) + 1 =
   turns_of assistant (Retrieve.messages (Retrieve.ui s))
   + length (Retrieve.waiting s))%nat ->
  (turns_of user (Retrieve.messages (Retrieve.ui (Retrieve.step s e))) + 1 =
   turns_of assistant (Retrieve.messages (Retrieve.ui (Retrieve.step s e)))
   + length (Retrieve.waiting (Retrieve.step s e)))%nat.
Proof.
  intros Hs. destruct e as [value| |n t]; cbn.
  - done.
  - unfold Retrieve.sendMessage.
    destruct (negb _); cbn.
    + by rewrite app_nil_r.
    + rewrite !turns_of_app, length_app.
      unfold turns_of in *. simpl. lia.
  - destruct (Retrieve.waiting s !! n) as [h|] eqn:Hn; cbn; [|done].
    rewrite retrieve_settle_messages, !turns_of_app.
    rewrite length_delete by eauto.
    apply lookup_lt_Some in Hn.
    unfold turns_of in *. destruct (axios_post t); simpl; lia.
Qed.

(** X7.  In every reachable state of the retrieval component, also with
    requests overlapping, the user turns are as many as the assistant turns
    after the first one plus the requests outstanding: every question has
    got exactly one answer or is still waiting for it. *)
Theorem X7_retrieve_turn_balance :
  forall s : Retrieve.System,
    Retrieve.reachable s ->
    (turns_of user (Retrieve.messages (Retrieve.ui s)) + 1 =
     turns_of assistant (Retrieve.messages (Retrieve.ui s))
     + length (Retrieve.waiting s))%nat.
Proof.
  intros s (r & es & ->). unfold Retrieve.run.
  assert (H0 : (turns_of user (Retrieve.messages (Retrieve.ui (Retrieve.mount r))) + 1 =
                turns_of assistant (Retrieve.messages (Retrieve.ui (Retrieve.mount r)))
                + length (Retrieve.waiting (Retrieve.mount r)))%nat).
  { cbn. destruct (retrieve_initial_turns r) as [-> ->]. done. }
  revert H0. generalize (Retrieve.mount r).
  induction es as [|e es IH]; intros s Hs; simpl; [done|].
  by apply IH, retrieve_step_balance.
Qed.

Lemma X7_retrieve_turn_balance_witness :
  (turns_of user
     (Retrieve.messages
        (Retrieve.ui
           (Retrieve.run
              [Retrieve.Change (lit "a"); Retrieve.Send; Retrieve.Send;
               Retrieve.Settle 1 (HttpResponse 500 BodyNull)]
              (Retrieve.mount None)))) + 1 = 2 + 1)%nat.
Proof.
  exact (X7_retrieve_turn_balance
           (Retrieve.run
              [Retrieve.Change (lit "a"); Retrieve.Send; Retrieve.Send;
               Retrieve.Settle 1 (HttpResponse 500 BodyNull)]
              (Retrieve.mount None))
           (ex_intro _ None (ex_intro _ _ eq_refl))).
Defined.

Lemma retrieve_step_send s :
  trim (Retrieve.input (Retrieve.ui s)) <> [] ->
  Retrieve.step s Retrieve.Send =
    {| Retrieve.ui :=
         {| Retrieve.messages :=
              Retrieve.messages (Retrieve.ui s) ++
                [ {| role := user;
                     content := Some (Retrieve.input (Retrieve.ui s));
                     context := None |} ];
            Retrieve.input := Retrieve.input (Retrieve.ui s) |};
       Retrieve.waiting :=
         Retrieve.waiting s ++
           [ {| Retrieve.seen := Retrieve.messages (Retrieve.ui s);
                Retrieve.userMessage :=
                  {| role := user;
                     content := Some (Retrieve.input (Retrieve.ui s));
                     context := None |};
                Retrieve.requestBody :=
                  {| Retrieve.query := Retrieve.input (Retrieve.ui s);
                     Retrieve.k := 5 |} |} ] |}.
Proof.
  intros Ht. unfold Retrieve.step.
  by rewrite (retrieve_sendMessage_accepts _ Ht).
Qed.

(** X8.  The retrieval component keeps the input at submission, so that a
    second invocation of [sendMessage] before the answer sends the same query
    again and appends the same user turn again. *)
Theorem X8_retrieve_double_submission :
  forall s : Retrieve.System,
    trim (Retrieve.input (Retrieve.ui s)) <> [] ->
    Retrieve.messages
      (Retrieve.ui (Retrieve.run [Retrieve.Send; Retrieve.Send] s)) =
      Retrieve.messages (Retrieve.ui s) ++
        [ {| role := user;
             content := Some (Retrieve.input (Retrieve.ui s));
             context := None |};
          {| role := user;
             content := Some (Retrieve.input (Retrieve.ui s));
             context := None |} ]
    /\ Retrieve.requestBody
         <$> Retrieve.waiting (Retrieve.run [Retrieve.Send; Retrieve.Send] s) =
         (Retrieve.requestBody <$> Retrieve.waiting s) ++
           [ {| Retrieve.query := Retrieve.input (Retrieve.ui s); Retrieve.k := 5 |};
             {| Retrieve.query := Retrieve.input (Retrieve.ui s); Retrieve.k := 5 |} ]
    /\ Retrieve.input
         (Retrieve.ui (Retrieve.run [Retrieve.Send; Retrieve.Send] s)) =
         Retrieve.input (Retrieve.ui s).
Proof.
  intros s Ht. unfold Retrieve.run. cbn [foldl].
  rewrite (retrieve_step_send s Ht).
  rewrite retrieve_step_send by exact Ht. cbn.
  rewrite <- !app_assoc, !fmap_app. by repeat split.
Qed.

Lemma X8_retrieve_double_submission_witness :
  Retrieve.messages
    (Retrieve.ui
       (Retrieve.run [Retrieve.Send; Retrieve.Send]
          {| Retrieve.ui := {| Retrieve.messages := []; Retrieve.input := lit "a" |};
             Retrieve.waiting := [] |})) =
    [ {| role := user; content := Some (lit "a"); context := None |};
      {| role := user; content := Some (lit "a"); context := None |} ].
Proof.
  refine (proj1
            (X8_retrieve_double_submission
               {| Retrieve.ui := {| Retrieve.messages := []; Retrieve.input := lit "a" |};
                  Retrieve.waiting := [] |} _)).
  vm_compute. discriminate.
Defined.

(** * The seed payload *)

(** X9.  A seed payload without findings, missing or empty, counts as no
    seed payload, whatever its other fields.  One with findings but with a
    missing or empty query gives the one assistant turn "Loaded initial risk
    data." with those findings, in both components. *)
Theorem X9_seed_edge_cases :
  (forall r : InitialResponse,
      seed_context r = None \/ seed_context r = Some [] ->
      Chat.initial_messages (Some r) = Chat.initial_messages None
      /\ Retrieve.initial_messages (Some r) = Retrieve.initial_messages None)
  /\ (forall (r : InitialResponse) (c : list RiskContextItem),
        seed_context r = Some c -> c <> [] ->
        seed_query r = None \/ seed_query r = Some [] ->
        Chat.initial_messages (Some r) =
          [ {| role := assistant;
               content := Some (lit "Loaded initial risk data.");
               context := Some c |} ]
        /\ Retrieve.initial_messages (Some r) =
             [ {| role := assistant;
                  content := Some (lit "Loaded initial risk data.");
                  context := Some c |} ]).
Proof.
  split.
  - intros r [Hc|Hc]; unfold Chat.initial_messages, Retrieve.initial_messages;
      by rewrite Hc.
  - intros r c Hc Hne Hq.
    unfold Chat.initial_messages, Retrieve.initial_messages, if_truthy.
    rewrite Hc. destruct c as [|item c]; [done|].
    by destruct Hq as [-> | ->].
Qed.

Lemma X9_seed_edge_cases_witness :
  Chat.initial_messages
    (Some {| seed_query := Some (lit "Q");
             seed_status := Some (lit "Success");
             seed_count := Some 5;
             seed_context := Some [] |}) = []
  /\ Retrieve.initial_messages
       (Some {| seed_query := Some [];
                seed_status := None;
                seed_count := None;
                seed_context := Some [sbir_applicant] |}) =
       [ {| role := assistant;
            content := Some (lit "Loaded initial risk data.");
            context := Some [sbir_applicant] |} ].
Proof.
  destruct X9_seed_edge_cases as [Hempty Hquery].
  split.
  - exact (proj1 (Hempty
                    {| seed_query := Some (lit "Q");
                       seed_status := Some (lit "Success");
                       seed_count := Some 5;
                       seed_context := Some [] |}
                    (or_intror eq_refl))).
  - refine (proj2 (Hquery
                     {| seed_query := Some [];
                        seed_status := None;
                        seed_count := None;
                        seed_context := Some [sbir_applicant] |}
                     [sbir_applicant] eq_refl _ (or_intror eq_refl))).
    discriminate.
Defined.

(** * Rendering *)

Lemma br_no_newline : 10%N ∉ lit "<br />".
Proof. exact (bool_decide_unpack (10%N ∉ lit "<br />") I). Qed.

(** X10.  Replacing the line feeds of a text by break tags leaves no line
    feed behind, makes the text five code units longer per line feed, changes
    nothing else, so that a text without line feed is unchanged, and can be
    done piece by piece. *)
Theorem X10_replace_newlines :
  forall s : jsstring,
    (10%N ∉ replace_newlines s)
    /\ length (replace_newlines s) =
         (length s + 5 * length (List.filter (N.eqb 10) s))%nat
    /\ (10%N ∉ s -> replace_newlines s = s)
    /\ (forall s' : jsstring,
          replace_newlines (s ++ s') = replace_newlines s ++ replace_newlines s').
Proof.
  intros s. unfold replace_newlines. repeat split.
  - induction s as [|c s IH]; [by apply not_elem_of_nil|].
    rewrite bind_cons. apply not_elem_of_app. split; [|done].
    destruct (N.eqb_spec c 10) as [->|Hc]; [apply br_no_newline|].
    rewrite not_elem_of_cons. split; [done | by apply not_elem_of_nil].
  - induction s as [|c s IH]; [done|].
    rewrite bind_cons, length_app, IH. cbn [List.filter].
    destruct (N.eqb_spec c 10) as [->|Hc]; [simpl; lia|].
    destruct (N.eqb_spec 10 c) as [Heq|_]; [by subst|]. simpl. lia.
  - induction s as [|c s IH]; [done|].
    intros [Hc Hs]%not_elem_of_cons.
    rewrite bind_cons, (IH Hs).
    by destruct (N.eqb_spec c 10) as [->|_].
  - intros s'. apply bind_app.
Qed.

Lemma X10_replace_newlines_witness :
  replace_newlines (lit "**IBM** (File: ibm).") = lit "**IBM** (File: ibm).".
Proof.
  refine (proj1 (proj2 (proj2 (X10_replace_newlines (lit "**IBM** (File: ibm)."))))
            _).
  exact (bool_decide_unpack (10%N ∉ lit "**IBM** (File: ibm).") I).
Defined.

(** Every turn of a reachable state of the chat component satisfies what
    the turns it started with and the turns each event adds satisfy. *)
Lemma chat_step_Forall (P : ChatMessage -> Prop) s e :
  Chat.reachable s ->
  (forall value, P {| role := user; content := Some value; context := None |}) ->
  match e with
  | Chat.Settle _ t =>
      match Chat.newAssistantMessage (axios_post t) with
      | inl reply => P reply
      | inr error => P (Chat.errorMessage error)
      end
  | _ => True
  end ->
  Forall P (Chat.messages (Chat.ui s)) ->
  Forall P (Chat.messages (Chat.ui (Chat.step s e))).
Proof.
  intros Hr Hu He Hs. destruct e as [value| |n t].
  - unfold Chat.step. by destruct (Chat.isLoading (Chat.ui s)).
  - unfold Chat.step, Chat.sendMessage.
    destruct (negb _ || _); cbn; [done|].
    apply Forall_app. split; [done|]. by apply Forall_singleton.
  - destruct (Chat.waiting s !! n) as [h|] eqn:Hn.
    + destruct (chat_reachable_waiting s n h Hr Hn) as (_ & _ & Hp).
      destruct Hp as (_ & _ & Hmsg & _).
      rewrite Hmsg in Hs. apply Forall_app in Hs as [Hseen Hnew].
      apply Forall_inv in Hnew.
      rewrite (chat_step_settle s n h t Hr Hn). cbn.
      apply Forall_app. split; [done|].
      destruct (Chat.newAssistantMessage (axios_post t));
        repeat (constructor; try done).
    + unfold Chat.step. by rewrite Hn.
Qed.

Lemma chat_run_Forall (P : ChatMessage -> Prop) es :
  (forall value, P {| role := user; content := Some value; context := None |}) ->
  Forall (fun e =>
            match e with
            | Chat.Settle _ t =>
                match Chat.newAssistantMessage (axios_post t) with
                | inl reply => P reply
                | inr error => P (Chat.errorMessage error)
                end
            | _ => True
            end) es ->
  forall s, Chat.reachable s ->
    Forall P (Chat.messages (Chat.ui s)) ->
    Forall P (Chat.messages (Chat.ui (Chat.run es s))).
Proof.
  intros Hu. unfold Chat.run.
  induction 1 as [|e es He _ IH]; intros s Hr Hs; simpl; [done|].
  apply IH; [by apply chat_reachable_step|].
  by apply chat_step_Forall.
Qed.

Lemma retrieve_run_Forall (P : ChatMessage -> Prop) es :
  (forall value, P {| role := user; content := Some value; context := None |}) ->
  (forall resp, P (Retrieve.assistantMessage resp)) ->
  P Retrieve.errorMessage ->
  forall s,
    Forall P (Retrieve.messages (Retrieve.ui s)) ->
    Forall P (Retrieve.messages (Retrieve.ui (Retrieve.run es s))).
Proof.
  intros Hu Ha Herr. unfold Retrieve.run.
  induction es as [|e es IH]; intros s Hs; simpl; [done|].
  apply IH. destruct e as [value| |n t]; cbn.
  - done.
  - unfold Retrieve.sendMessage. destruct (negb _); cbn; [done|].
    apply Forall_app. split; [done|]. by apply Forall_singleton.
  - destruct (Retrieve.waiting s !! n) as [h|]; cbn; [|done].
    rewrite retrieve_settle_messages.
    apply Forall_app. split; [done|]. apply Forall_singleton.
    by destruct (axios_post t).
Qed.

Lemma chat_initial_Forall (P : ChatMessage -> Prop) r :
  (forall m, role m = assistant -> is_Some (content m) -> P m) ->
  Forall P (Chat.initial_messages r).
Proof.
  intros HP. unfold Chat.initial_messages.
  destruct r as [r|]; [|done].
  destruct (seed_context r) as [c|]; [|done].
  destruct (negb _); [|done].
  apply Forall_singleton. by apply HP.
Qed.

Lemma retrieve_initial_Forall (P : ChatMessage -> Prop) r :
  (forall m, role m = assistant -> is_Some (content m) -> P m) ->
  Forall P (Retrieve.initial_messages r).
Proof.
  intros HP. unfold Retrieve.initial_messages.
  destruct r as [r|]; [|by apply Forall_singleton, HP].
  destruct (seed_context r) as [c|]; [|by apply Forall_singleton, HP].
  destruct (negb _); by apply Forall_singleton, HP.
Qed.

(** X11.  As long as every 2xx response body is null or has a string as
    its [response], every turn of the chat component has a string as its
    content, so that [message.content.replace] throws in no bubble, whatever
    the seed payload and whatever else happens. *)
Theorem X11_chat_bubbles_render :
  forall (r : option InitialResponse) (es : list Chat.Event),
    Forall (fun e =>
              match e with
              | Chat.Settle _ t => carries_response t = true
              | _ => True
              end) es ->
    Forall (fun m => is_Some (content m))
      (Chat.messages (Chat.ui (Chat.run es (Chat.mount r))))
    /\ is_Some
         (ChatView.bubbles (Chat.messages (Chat.ui (Chat.run es (Chat.mount r))))).
Proof.
  intros r es Hes.
  assert (Hall : Forall (fun m => is_Some (content m))
                   (Chat.messages (Chat.ui (Chat.run es (Chat.mount r))))).
  { apply (chat_run_Forall (fun m => is_Some (content m))).
    - intros value. by eexists.
    - eapply Forall_impl; [exact Hes|].
      intros [value| |n t]; [done|done|]. cbn.
      destruct t as [error|status [|[response|] bcontext]]; cbn;
        try (intros _; by eexists);
        destruct (validateStatus status); cbn; try done;
        intros _; by eexists.
    - by exists r, [].
    - apply chat_initial_Forall. by intros m _ Hm. }
  split; [exact Hall|].
  apply mapM_is_Some. eapply Forall_impl; [exact Hall|].
  intros m [text Hm]. unfold ChatView.innerHTML. cbn. rewrite Hm. by eexists.
Qed.

Lemma X11_chat_bubbles_render_witness :
  is_Some
    (ChatView.bubbles
       (Chat.messages
          (Chat.ui
             (Chat.run
                [Chat.Change (lit "a"); Chat.Send;
                 Chat.Settle 0 (HttpResponse 200 BodyNull);
                 Chat.Change (lit "b"); Chat.Send;
                 Chat.Settle 0 (HttpResponse 200 (BodyFields (Some (lit "c")) None))]
                (Chat.mount (Some initialResponse)))))).
Proof.
  apply (X11_chat_bubbles_render (Some initialResponse)).
  repeat constructor.
Defined.

(** X12.  Once a 2xx response without the [response] property has been
    handled by the chat component, the message area throws at every later
    render, whatever happens next: the turn without content is never
    removed. *)
Theorem X12_chat_bubbles_throw_after_missing_response :
  forall (s : Chat.System) n h status bcontext (es : list Chat.Event),
    Chat.reachable s -> Chat.waiting s !! n = Some h ->
    validateStatus status = true ->
    ChatView.bubbles
      (Chat.messages
         (Chat.ui
            (Chat.run
               (Chat.Settle n (HttpResponse status (BodyFields None bcontext)) :: es)
               s))) = None.
Proof.
  intros s n h status bcontext es Hr Hn Hs.
  set (t := HttpResponse status (BodyFields None bcontext)).
  pose proof (chat_reachable_step s (Chat.Settle n t) Hr) as Hr'.
  assert (Hpre : Chat.messages (Chat.ui (Chat.step s (Chat.Settle n t)))
                   `prefix_of`
                   Chat.messages (Chat.ui (Chat.run es (Chat.step s (Chat.Settle n t))))).
  { etrans; [|by apply chat_completed_messages, chat_reachable_invariant,
                       chat_reachable_run].
    etrans; [|by apply chat_completed_run].
    unfold chat_completed.
    by rewrite (chat_step_settle s n h t Hr Hn). }
  change (Chat.run (Chat.Settle n t :: es) s)
    with (Chat.run es (Chat.step s (Chat.Settle n t))).
  destruct Hpre as [rest ->].
  apply mapM_None_2, Exists_app. left.
  rewrite (chat_step_settle s n h t Hr Hn). cbn. rewrite Hs. cbn.
  apply Exists_app. right. apply Exists_cons. right.
  by apply Exists_cons; left.
Qed.

Lemma X12_chat_bubbles_throw_after_missing_response_witness :
  ChatView.bubbles
    (Chat.messages
       (Chat.ui
          (Chat.run
             [Chat.Settle 0 (HttpResponse 200 (BodyFields None None));
              Chat.Change (lit "b"); Chat.Send;
              Chat.Settle 0 (HttpResponse 200 (BodyFields (Some (lit "c")) None))]
             (Chat.run [Chat.Change (lit "a"); Chat.Send] (Chat.mount None))))) =
    None.
Proof.
  exact (X12_chat_bubbles_throw_after_missing_response
           (Chat.run [Chat.Change (lit "a"); Chat.Send] (Chat.mount None))
           0%nat _ 200 None _
           (ex_intro _ None (ex_intro _ _ eq_refl)) eq_refl eq_refl).
Defined.

(** X13.  Below a bubble the second copy of the chat component shows every
    finding of the message, once and in order, a missing context like an
    empty one; it shows nothing exactly when the message has no finding. *)
Theorem X13_sources_show_every_finding :
  forall m : ChatMessage,
    ChatView.shown (ChatView.sources m) = context_items m
    /\ (ChatView.sources m = ChatView.NoSources <-> context_items m = []).
Proof.
  intros [r text [c|]]; unfold ChatView.sources, context_items; cbn; [|done].
  destruct c as [|first [|second c]]; cbn; [done|done|].
  split; [|done].
  do 2 f_equal. rewrite fmap_imap.
  rewrite (imap_ext _ (const (fun x => x))) by done.
  by rewrite imap_const, list_fmap_id.
Qed.

Lemma lit_inj s1 s2 : lit s1 = lit s2 -> s1 = s2.
Proof.
  unfold lit. intros H.
  assert (Hinj : Inj (=) (=) Ascii.N_of_ascii).
  { intros a b Hab.
    by rewrite <- (Ascii.ascii_N_embedding a), <- (Ascii.ascii_N_embedding b), Hab. }
  apply (inj (fmap Ascii.N_of_ascii)) in H.
  by rewrite <- (String.string_of_list_ascii_of_string s1),
             <- (String.string_of_list_ascii_of_string s2), H.
Qed.

Lemma decimal_inj a b : decimal a = decimal b -> a = b.
Proof.
  unfold decimal. intros H%lit_inj.
  apply DecimalZ.to_int_inj.
  assert (Hok : forall z, Z.to_int z <> Decimal.Pos Decimal.Nil
                          /\ Z.to_int z <> Decimal.Neg Decimal.Nil).
  { intros [|p|p]; cbn; split; try discriminate;
      intros [= Hp]; by apply DecimalPos.Unsigned.to_uint_nonnil in Hp. }
  pose proof (NilZero.isi (Z.to_int a) (proj1 (Hok a)) (proj2 (Hok a))) as Ha.
  pose proof (NilZero.isi (Z.to_int b) (proj1 (Hok b)) (proj2 (Hok b))) as Hb.
  rewrite H in Ha. congruence.
Qed.

Lemma numbered_inj (before after : jsstring) :
  Inj (=) (=) (fun i : nat => before ++ decimal (Z.of_nat i) ++ after).
Proof.
  intros i j H. apply app_inv_head, app_inv_tail, decimal_inj in H. lia.
Qed.

(** X14.  When the second copy of the chat component shows accordions,
    there are at least two, the heading counts them in the plural, their ids
    and their [aria-controls] are pairwise distinct within the message, and
    the first one alone starts expanded. *)
Theorem X14_accordion_panels :
  forall (m : ChatMessage) (heading : jsstring) (panels : list ChatView.Panel),
    ChatView.sources m = ChatView.Accordions heading panels ->
    (2 <= length panels)%nat
    /\ heading =
         decimal (Z.of_nat (length panels)) ++ lit " Retrieved Source Documents"
    /\ NoDup (ChatView.panel_id <$> panels)
    /\ NoDup (ChatView.panel_controls <$> panels)
    /\ (forall i p, panels !! i = Some p ->
          (ChatView.defaultExpanded p = true <-> i = 0%nat)).
Proof.
  intros [r text [c|]] heading panels; unfold ChatView.sources; cbn; [|done].
  destruct c as [|first [|second c]]; [done|done|].
  set (l := first :: second :: c).
  assert (Hlen : (2 <= length l)%nat) by (simpl; lia).
  change (ChatView.Accordions (ChatView.sources_heading (length l))
            (imap ChatView.panel l) = ChatView.Accordions heading panels -> 
          (2 <= length panels)%nat
          /\ heading =
               decimal (Z.of_nat (length panels)) ++ lit " Retrieved Source Documents"
          /\ NoDup (ChatView.panel_id <$> panels)
          /\ NoDup (ChatView.panel_controls <$> panels)
          /\ (forall i p, panels !! i = Some p ->
                (ChatView.defaultExpanded p = true <-> i = 0%nat))).
  clearbody l. clear first second c. rename l into c.
  intros [= <- <-].
  rewrite length_imap. split; [lia|]. split.
  { unfold ChatView.sources_heading.
    replace (1 <? length c)%nat with true by (symmetry; apply Nat.ltb_lt; lia).
    f_equal. }
  split; [|split].
  - rewrite fmap_imap.
    rewrite (imap_ext _ (fun i _ =>
               lit "panel-" ++ decimal (Z.of_nat i) ++ lit "-header")) by done.
    rewrite imap_seq_0.
    apply (@NoDup_fmap_2 nat jsstring _ (numbered_inj (lit "panel-") (lit "-header"))),
      NoDup_seq.
  - rewrite fmap_imap.
    rewrite (imap_ext _ (fun i _ =>
               lit "panel-" ++ decimal (Z.of_nat i) ++ lit "-content")) by done.
    rewrite imap_seq_0.
    apply (@NoDup_fmap_2 nat jsstring _ (numbered_inj (lit "panel-") (lit "-content"))),
      NoDup_seq.
  - intros i p Hp. rewrite list_lookup_imap in Hp.
    destruct (c !! i) as [ctx|]; [|done].
    injection Hp as <-. cbn. apply Nat.eqb_eq.
Qed.

Lemma X14_accordion_panels_witness :
  NoDup
    (ChatView.panel_id <$> imap ChatView.panel [contested_industry; sbir_applicant]).
Proof.
  exact (proj1 (proj2 (proj2
           (X14_accordion_panels
              {| role := assistant;
                 content := Some (lit "b");
                 context := Some [contested_industry; sbir_applicant] |}
              _ _ eq_refl)))).
Defined.

(** X15.  In every reachable state of either component a user turn carries
    no context.  So the chat component shows no findings below a user
    bubble, and the role test of the retrieval component hides nothing: its
    cards are the findings of the message. *)
Theorem X15_user_turns_carry_no_context :
  (forall s : Chat.System,
      Chat.reachable s ->
      Forall (fun m => role m = user ->
                       context m = None
                       /\ ChatView.sources m = ChatView.NoSources)
        (Chat.messages (Chat.ui s)))
  /\ (forall s : Retrieve.System,
        Retrieve.reachable s ->
        Forall (fun m => (role m = user -> context m = None)
                         /\ RetrieveView.cards m = context_items m)
          (Retrieve.messages (Retrieve.ui s))).
Proof.
  split.
  - intros s (r & es & ->).
    apply (chat_run_Forall
             (fun m => role m = user ->
                       context m = None /\ ChatView.sources m = ChatView.NoSources)).
    + by intros value _.
    + apply Forall_forall. intros [value| |n t] _; [done|done|].
      destruct (Chat.newAssistantMessage (axios_post t)) as [reply|error] eqn:Hreply.
      * intros Hrole. by rewrite (chat_newAssistantMessage_role _ _ Hreply) in Hrole.
      * done.
    + by exists r, [].
    + apply chat_initial_Forall. by intros m ->.
  - intros s (r & es & ->).
    apply (retrieve_run_Forall
             (fun m => (role m = user -> context m = None)
                       /\ RetrieveView.cards m = context_items m)).
    + by intros value.
    + by intros resp.
    + done.
    + apply retrieve_initial_Forall. intros [role0 text c] Hrole _.
      cbn in Hrole. subst role0. split; [done|].
      unfold RetrieveView.cards, context_items. cbn. by destruct c.
Qed.

Lemma X15_user_turns_carry_no_context_witness :
  Forall (fun m => (role m = user -> context m = None)
                   /\ RetrieveView.cards m = context_items m)
    (Retrieve.messages
       (Retrieve.ui
          (Retrieve.run
             [Retrieve.Change (lit "a"); Retrieve.Send;
              Retrieve.Settle 0 (HttpResponse 200 (BodyFields None (Some [sbir_applicant])))]
             (Retrieve.mount (Some initialResponse))))).
Proof.
  exact (proj2 X15_user_turns_carry_no_context _
           (ex_intro _ (Some initialResponse) (ex_intro _ _ eq_refl))).
Defined.
